(** * RAT transport protocol: a shallow embedding of [rat.py]

    The development follows the Python module top-down: the module
    constants, the two enumerations, the Python primitives the codec is
    written with ([bin], [int(.., 2)], UTF-8 [bytes(..)] / [str(..)]),
    the header codec and flag codec of [RatSocket], then the socket
    object itself with its operations run against an explicit model of
    the UDP socket layer. *)

From Stdlib Require Import ZArith NArith PArith QArith List String Ascii Bool Lia.
Import ListNotations.
Local Open Scope Z_scope.

(** ** Python values *)

(** A [bytes] object is a sequence of octets; a [str] is a sequence of
    Unicode code points. *)
Definition bytes := list ascii.
Definition pystr := list N.

Definition ord (c : ascii) : N := N_of_ascii c.
Definition chr8 (n : N) : ascii := ascii_of_N n.

(** An ASCII literal of the source, as a [bytes] and as a [str]. *)
Definition b_lit (s : string) : bytes := list_ascii_of_string s.
Definition s_lit (s : string) : pystr := map ord (list_ascii_of_string s).

(** The exceptions the module can raise.  [IOError] is Python 3's alias of
    [OSError]; socket failures and timeouts are [OSError]s without one of
    the module's messages. *)
Inductive exn : Type :=
| IOError (msg : string)
| SocketError
| AssertionError (msg : string)
| NameError (name : string)
| UnboundLocalError (name : string)
| TypeError
| ValueError
| IndexError
| UnicodeDecodeError
| UnicodeEncodeError.

Inductive result (A : Type) : Type :=
| Ok (a : A)
| Raise (e : exn).
Arguments Ok {A} a.
Arguments Raise {A} e.

Definition rbind {A B} (r : result A) (k : A -> result B) : result B :=
  match r with
  | Ok a => k a
  | Raise e => Raise e
  end.

Declare Scope result_scope.
Delimit Scope result_scope with result.
Notation "'try!' x <- r ; k" := (rbind r (fun x => k))
  (at level 10, x name, r at level 100, k at level 200) : result_scope.
Local Open Scope result_scope.

(** ** Module constants (rat.py lines 5-41) *)

Definition RAT_MAX_SEQ_NUM : Z := 65535.
Definition RAT_MAX_STREAM_ID : Z := 65535.
Definition RAT_RETRY_TIMES : nat := 5.

(** Header sizes, in bits. *)
Definition RAT_HEADER_SIZE : nat := 64.
Definition UDP_HEADER_SIZE : nat := 64.

Definition RAT_PAYLOAD_SIZE : nat := 512.
Definition RAT_DEFAULT_WINDOW : Z := 5.

(** Timers, in seconds; [/] is Python's true division. *)
Definition RAT_REPLY_TIMEOUT : Z := 4.
Definition RAT_BYE_TIMEOUT : Q := inject_Z RAT_REPLY_TIMEOUT / inject_Z 4.

Definition ERR_PREFIX : string := "<error> ".
Definition DEBUG_PREFIX : string := "<debug> ".
Definition ERR_STATE : string :=
  ERR_PREFIX ++ "Cannot perform operation " ++ "in current connection state!".
Definition ERR_HEADER_INVALID : string :=
  ERR_PREFIX ++ "RAT header size mismatch; " ++ "header may be malformed!".
Definition ERR_MISALIGNED_WORDS : string :=
  ERR_PREFIX ++ "Overhead data is not aligned to 16 bits!".
Definition ERR_NUM_OUT_OF_RANGE : string := ERR_PREFIX ++ "Number out of range!".
Definition DEBUG_LISTEN : string :=
  DEBUG_PREFIX ++ "Now listening for connections (SOCK_SERVOPEN).".
Definition DEBUG_LISTEN_HLO : string :=
  DEBUG_PREFIX ++ "Waiting for HLO... (SOCK_SERVOPEN)".
Definition DEBUG_CLI_SENT_HLO : string :=
  DEBUG_PREFIX ++ "Sending HLO (SOCK_HLOSENT).".
Definition DEBUG_SERV_RECV_HLO : string :=
  DEBUG_PREFIX ++ "Received HLO (SOCK_HLORECV).".

(** The error kinds of the specification, as the module raises them. *)
Definition StateViolation : exn := IOError ERR_STATE.
Definition HeaderMalformed : exn := IOError ERR_HEADER_INVALID.
Definition MisalignedWords : exn := IOError ERR_MISALIGNED_WORDS.
Definition NumberOutOfRange : exn := AssertionError ERR_NUM_OUT_OF_RANGE.

(** ** Enumerations (rat.py lines 43-69) *)

Inductive State : Type :=
| SOCK_UNOPENED
| SOCK_SERVOPEN
| SOCK_HLOSENT
| SOCK_HLORECV
| SOCK_ESTABLISHED
| SOCK_BYESENT
| SOCK_BYERECV
| SOCK_CLOSED.

Inductive Flag : Type :=
| ACK
| NACK
| SWIN
| RST
| ALI
| HLO
| BYE
| EXP.

Definition State_value (s : State) : Z :=
  match s with
  | SOCK_UNOPENED => 0 | SOCK_SERVOPEN => 1 | SOCK_HLOSENT => 2
  | SOCK_HLORECV => 3 | SOCK_ESTABLISHED => 4 | SOCK_BYESENT => 5
  | SOCK_BYERECV => 6 | SOCK_CLOSED => 7
  end.

Definition Flag_value (f : Flag) : Z :=
  match f with
  | ACK => 0 | NACK => 1 | SWIN => 2 | RST => 3
  | ALI => 4 | HLO => 5 | BYE => 6 | EXP => 7
  end.

Definition State_eqb (a b : State) : bool := State_value a =? State_value b.
Definition Flag_eqb (a b : Flag) : bool := Flag_value a =? Flag_value b.

Definition RAT_FLAG_ORDER : list Flag :=
  [ACK; NACK; SWIN; RST; ALI; HLO; BYE; EXP].

(** ** Python primitives used by the codec *)

(** [b[i:j]] for constant bounds [0 <= i <= j]. *)
Definition slice {A} (i j : nat) (l : list A) : list A :=
  firstn (j - i) (skipn i l).

(** The binary digits of a positive number, most significant first. *)
Fixpoint pos_bits (p : positive) : list ascii :=
  match p with
  | xH => ["1"%char]
  | xO q => pos_bits q ++ ["0"%char]
  | xI q => pos_bits q ++ ["1"%char]
  end.

(** [bin(n)]: ["0b..."], with a leading ["-"] for negative numbers. *)
Definition bin (n : Z) : pystr :=
  match n with
  | Z0 => s_lit "0b0"
  | Zpos p => s_lit "0b" ++ map ord (pos_bits p)
  | Zneg p => s_lit "-0b" ++ map ord (pos_bits p)
  end.

(** [bytes(s, "utf-8")].  Lone surrogates cannot be encoded; a number
    above U+10FFFF is no code point at all and is rejected the same way. *)
Definition utf8_encode_cp (c : N) : result bytes :=
  (if c <? 128 then Ok [chr8 c]
   else if c <? 2048 then
     Ok [chr8 (192 + c / 64); chr8 (128 + c mod 64)]
   else if (55296 <=? c) && (c <=? 57343) then Raise UnicodeEncodeError
   else if c <? 65536 then
     Ok [chr8 (224 + c / 4096); chr8 (128 + (c / 64) mod 64);
         chr8 (128 + c mod 64)]
   else if c <=? 1114111 then
     Ok [chr8 (240 + c / 262144); chr8 (128 + (c / 4096) mod 64);
         chr8 (128 + (c / 64) mod 64); chr8 (128 + c mod 64)]
   else Raise UnicodeEncodeError)%N.

Fixpoint utf8_encode (s : pystr) : result bytes :=
  match s with
  | [] => Ok []
  | c :: t =>
      try! hd <- utf8_encode_cp c;
      try! tl <- utf8_encode t;
      Ok (hd ++ tl)
  end.

(** [str(b, "utf-8")]: the strict decoder (no overlong forms, no
    surrogates, nothing above U+10FFFF). *)
Definition is_cont (n : N) : bool := ((128 <=? n) && (n <=? 191))%N.

Fixpoint utf8_decode (b : bytes) : result pystr :=
  match b with
  | [] => Ok []
  | c0 :: t0 =>
      let b0 := ord c0 in
      (if b0 <? 128 then
         try! r <- utf8_decode t0; Ok (b0 :: r)
       else
         match t0 with
         | [] => Raise UnicodeDecodeError
         | c1 :: t1 =>
             let b1 := ord c1 in
             if (194 <=? b0) && (b0 <=? 223) then
               if is_cont b1 then
                 try! r <- utf8_decode t1;
                 Ok ((b0 - 192) * 64 + (b1 - 128) :: r)
               else Raise UnicodeDecodeError
             else
               match t1 with
               | [] => Raise UnicodeDecodeError
               | c2 :: t2 =>
                   let b2 := ord c2 in
                   if (224 <=? b0) && (b0 <=? 239) then
                     if (if b0 =? 224 then (160 <=? b1) && (b1 <=? 191)
                         else if b0 =? 237 then (128 <=? b1) && (b1 <=? 159)
                         else is_cont b1) && is_cont b2
                     then
                       try! r <- utf8_decode t2;
                       Ok ((b0 - 224) * 4096 + (b1 - 128) * 64
                           + (b2 - 128) :: r)
                     else Raise UnicodeDecodeError
                   else
                     match t2 with
                     | [] => Raise UnicodeDecodeError
                     | c3 :: t3 =>
                         let b3 := ord c3 in
                         if (240 <=? b0) && (b0 <=? 244) then
                           if (if b0 =? 240 then (144 <=? b1) && (b1 <=? 191)
                               else if b0 =? 244
                                    then (128 <=? b1) && (b1 <=? 143)
                               else is_cont b1)
                              && is_cont b2 && is_cont b3
                           then
                             try! r <- utf8_decode t3;
                             Ok ((b0 - 240) * 262144 + (b1 - 128) * 4096
                                 + (b2 - 128) * 64 + (b3 - 128) :: r)
                           else Raise UnicodeDecodeError
                         else Raise UnicodeDecodeError
                     end
               end
         end)%N
  end.

(** The whitespace [int] skips: tab, line feed, vertical tab, form feed,
    carriage return and space. *)
Definition is_space (c : ascii) : bool :=
  let n := ord c in (((9 <=? n) && (n <=? 13)) || (n =? 32))%N.

Fixpoint lstrip (s : bytes) : bytes :=
  match s with
  | c :: t => if is_space c then lstrip t else s
  | [] => []
  end.

(** The digits: binary digits with single underscores between them.  The
    scan stops at the first other character and returns the value read, the
    number of digits and the rest; a doubled or a trailing underscore is an
    error. *)
Fixpoint scan_bin (s : bytes) (prev_us : bool) (acc : Z) (ndigits : nat)
  : option (Z * nat * bytes) :=
  match s with
  | c :: t =>
      if Ascii.eqb c "0" then scan_bin t false (2 * acc) (S ndigits)
      else if Ascii.eqb c "1" then scan_bin t false (2 * acc + 1) (S ndigits)
      else if Ascii.eqb c "_" then
        if prev_us then None else scan_bin t true acc ndigits
      else if prev_us then None else Some (acc, ndigits, s)
  | [] => if prev_us then None else Some (acc, ndigits, [])
  end.

(** The optional sign. *)
Definition split_sign (s : bytes) : bool * bytes :=
  match s with
  | c :: t => if Ascii.eqb c "+" then (false, t)
              else if Ascii.eqb c "-" then (true, t)
              else (false, s)
  | [] => (false, s)
  end.

(** The optional [0b] prefix, and the one underscore allowed after it. *)
Definition skip_prefix (s : bytes) : bytes :=
  match s with
  | c0 :: c1 :: t =>
      if Ascii.eqb c0 "0" && (Ascii.eqb c1 "b" || Ascii.eqb c1 "B") then
        match t with
        | u :: t' => if Ascii.eqb u "_" then t' else t
        | [] => t
        end
      else s
  | _ => s
  end.

(** [int(b, 2)] on a [bytes] argument, as CPython parses it: optional
    surrounding whitespace, an optional sign, an optional [0b]/[0B] prefix,
    then at least one binary digit.  Anything else is a [ValueError]. *)
Definition int2 (b : bytes) : result Z :=
  let '(negative, s) := split_sign (lstrip b) in
  let s := skip_prefix s in
  match s with
  | [] => Raise ValueError
  | c :: _ =>
      if Ascii.eqb c "_" then Raise ValueError
      else
        match scan_bin s false 0 0 with
        | None => Raise ValueError
        | Some (v, ndigits, rest) =>
            match ndigits, lstrip rest with
            | S _, [] => Ok (if negative then - v else v)
            | _, _ => Raise ValueError
            end
        end
  end.

(** ** The socket object (rat.py lines 71-94) *)

Definition address : Type := string * Z.

(** The underlying UDP socket: its descriptor, its timeout ([None] is
    blocking mode) and the address it is bound to. *)
Record UdpSocket : Type := mkUdp {
  fd : nat;
  timeout : option Z;
  bound_to : option address
}.

#[warnings="-register-all"]
Inductive RatSocket : Type := mkRatSocket {
  current_state : State;
  udp : UdpSocket;
  stream_id : Z;
  seq_num : Z;
  window_size : Z;
  remote_addr : address;
  active_streams : list RatSocket;
  sock_queue : list bytes;
  obey_keepalives : bool;
  num_connections : Z;
  debug_mode : bool
}.

Definition set_current_state (v : State) (s : RatSocket) : RatSocket :=
  mkRatSocket v (udp s) (stream_id s) (seq_num s) (window_size s)
    (remote_addr s) (active_streams s) (sock_queue s) (obey_keepalives s)
    (num_connections s) (debug_mode s).
Definition set_udp (v : UdpSocket) (s : RatSocket) : RatSocket :=
  mkRatSocket (current_state s) v (stream_id s) (seq_num s) (window_size s)
    (remote_addr s) (active_streams s) (sock_queue s) (obey_keepalives s)
    (num_connections s) (debug_mode s).
Definition set_stream_id (v : Z) (s : RatSocket) : RatSocket :=
  mkRatSocket (current_state s) (udp s) v (seq_num s) (window_size s)
    (remote_addr s) (active_streams s) (sock_queue s) (obey_keepalives s)
    (num_connections s) (debug_mode s).
Definition set_seq_num (v : Z) (s : RatSocket) : RatSocket :=
  mkRatSocket (current_state s) (udp s) (stream_id s) v (window_size s)
    (remote_addr s) (active_streams s) (sock_queue s) (obey_keepalives s)
    (num_connections s) (debug_mode s).
Definition set_window_size (v : Z) (s : RatSocket) : RatSocket :=
  mkRatSocket (current_state s) (udp s) (stream_id s) (seq_num s) v
    (remote_addr s) (active_streams s) (sock_queue s) (obey_keepalives s)
    (num_connections s) (debug_mode s).
Definition set_remote_addr (v : address) (s : RatSocket) : RatSocket :=
  mkRatSocket (current_state s) (udp s) (stream_id s) (seq_num s)
    (window_size s) v (active_streams s) (sock_queue s) (obey_keepalives s)
    (num_connections s) (debug_mode s).
Definition set_active_streams (v : list RatSocket) (s : RatSocket)
  : RatSocket :=
  mkRatSocket (current_state s) (udp s) (stream_id s) (seq_num s)
    (window_size s) (remote_addr s) v (sock_queue s) (obey_keepalives s)
    (num_connections s) (debug_mode s).
Definition set_obey_keepalives (v : bool) (s : RatSocket) : RatSocket :=
  mkRatSocket (current_state s) (udp s) (stream_id s) (seq_num s)
    (window_size s) (remote_addr s) (active_streams s) (sock_queue s) v
    (num_connections s) (debug_mode s).
Definition set_num_connections (v : Z) (s : RatSocket) : RatSocket :=
  mkRatSocket (current_state s) (udp s) (stream_id s) (seq_num s)
    (window_size s) (remote_addr s) (active_streams s) (sock_queue s)
    (obey_keepalives s) v (debug_mode s).

(** ** Header codec and flag codec (rat.py lines 316-408) *)

(** The dictionary [decode_rat_header] returns. *)
Record Header : Type := mkHeader {
  h_stream_id : Z;
  h_seq_num : Z;
  h_length : Z;
  h_flags : pystr;
  h_offset : Z
}.

(** [zero_pad(num, length)]: [bin(int(num))[2:]] left-padded with zeros.
    For a negative [num] the slice drops ["-0"] and keeps the ["b"]. *)
Definition zero_pad (num : Z) (length : Z) : result bytes :=
  let num := skipn 2 (bin num) in
  let padding := length - Z.of_nat (List.length num) in
  if padding <? 0 then Raise (AssertionError ERR_NUM_OUT_OF_RANGE)
  else utf8_encode (repeat (ord "0") (Z.to_nat padding) ++ num).

(** [construct_header(length, flags, offset)]; reads [self.stream_id] and
    [self.seq_num] and assigns no attribute. *)
Definition construct_header (self : RatSocket) (length : Z) (flags : pystr)
    (offset : Z) : result bytes :=
  let header : bytes := [] in
  try! f <- zero_pad (stream_id self) 16; let header := header ++ f in
  try! f <- zero_pad (seq_num self) 16; let header := header ++ f in
  try! f <- zero_pad length 16; let header := header ++ f in
  try! f <- utf8_encode flags; let header := header ++ f in
  try! f <- zero_pad offset 8; let header := header ++ f in
  Ok header.

(** [decode_rat_header(byte_stream)]; assigns no attribute. *)
Definition decode_rat_header (byte_stream : bytes) : result Header :=
  if negb (List.length byte_stream =? RAT_HEADER_SIZE)%nat
  then Raise (IOError ERR_HEADER_INVALID)
  else
    try! stream_id <- int2 (slice 0 16 byte_stream);
    try! seq_num <- int2 (slice 16 32 byte_stream);
    try! length <- int2 (slice 32 48 byte_stream);
    try! flags <- utf8_decode (slice 48 56 byte_stream);
    try! offset <- int2 (slice 56 64 byte_stream);
    Ok (mkHeader stream_id seq_num length flags offset).

(** [flag in flags], for a list of flags. *)
Definition flag_in (flag : Flag) (flags : list Flag) : bool :=
  existsb (Flag_eqb flag) flags.

(** [flag_set(flags)]: one character per flag of [RAT_FLAG_ORDER]. *)
Definition flag_set (flags : list Flag) : pystr :=
  fold_left
    (fun output flag =>
       if flag_in flag flags then output ++ s_lit "1"
       else output ++ s_lit "0")
    RAT_FLAG_ORDER [].

(** [flag_decode(flag_field_bits)].  The test [is "1"] compares object
    identity; CPython shares every one-character Latin-1 string, so it
    agrees with equality of the character.  Indexing past the end of the
    string raises [IndexError]. *)
Definition flag_decode (flag_field_bits : pystr) : result (list Flag) :=
  fold_left
    (fun acc bit =>
       try! flag_list <- acc;
       match nth_error flag_field_bits bit with
       | None => Raise IndexError
       | Some c =>
           if (c =? ord "1")%N then
             match nth_error RAT_FLAG_ORDER bit with
             | Some flag => Ok (flag_list ++ [flag])
             | None => Raise IndexError
             end
           else Ok flag_list
       end)
    (seq 0 8) (Ok []).

(** ** The socket layer

    What the operating system and the peer do is not in the module; it is
    an environment that answers each call.  The world a method runs in is
    that environment together with the chronological trace of the calls
    made so far, and the [n]-th call of a kind gets the environment's
    [n]-th answer for that kind. *)

Inductive io_event : Type :=
| EvSocket (fd : nat)
| EvSetTimeout (fd : nat) (t : option Z)
| EvBind (fd : nat) (a : address)
| EvSendTo (fd : nat) (data : bytes) (a : address)
| EvRecvFrom (fd : nat) (bufsize : nat)
| EvRandrange (lo hi : Z)
| EvPrint (msg : string).

(** What a [recvfrom] finds: a datagram that arrives while the call waits,
    a failure of the socket layer, or nothing at all for as long as the
    call waits. *)
Inductive recv_outcome : Type :=
| Datagram (data : bytes) (from : address)
| RecvFails
| NoDatagram.

Record Env : Type := mkEnv {
  env_recv : nat -> recv_outcome;
  env_send : nat -> bool;
  env_bind : nat -> bool;
  env_rand : nat -> Z
}.

Record World : Type := mkWorld {
  env : Env;
  trace : list io_event
}.

Definition is_socket (e : io_event) : bool :=
  match e with EvSocket _ => true | _ => false end.
Definition is_bind (e : io_event) : bool :=
  match e with EvBind _ _ => true | _ => false end.
Definition is_sendto (e : io_event) : bool :=
  match e with EvSendTo _ _ _ => true | _ => false end.
Definition is_recvfrom (e : io_event) : bool :=
  match e with EvRecvFrom _ _ => true | _ => false end.
Definition is_randrange (e : io_event) : bool :=
  match e with EvRandrange _ _ => true | _ => false end.

(** The calls that reach the network. *)
Definition network_io (e : io_event) : bool :=
  is_bind e || is_sendto e || is_recvfrom e.

Definition count (p : io_event -> bool) (w : World) : nat :=
  List.length (filter p (trace w)).

Definition log (e : io_event) (w : World) : World :=
  mkWorld (env w) (trace w ++ [e]).

(** ** Methods as state-and-exception computations

    A method body runs on [self] and the world; an exception leaves the
    assignments made before it in place. *)
Definition M (A : Type) : Type :=
  RatSocket -> World -> result A * RatSocket * World.

Definition ret {A} (a : A) : M A := fun self w => (Ok a, self, w).
Definition raise {A} (e : exn) : M A := fun self w => (Raise e, self, w).
Definition bind {A B} (m : M A) (k : A -> M B) : M B :=
  fun self w =>
    match m self w with
    | (Ok a, self', w') => k a self' w'
    | (Raise e, self', w') => (Raise e, self', w')
    end.
Definition lift {A} (r : result A) : M A := fun self w => (r, self, w).
Definition get {A} (f : RatSocket -> A) : M A :=
  fun self w => (Ok (f self), self, w).
Definition assign (f : RatSocket -> RatSocket) : M unit :=
  fun self w => (Ok tt, f self, w).

(** [try: body except Exception: handler]; every exception of the model
    derives from [Exception]. *)
Definition try_except {A} (body handler : M A) : M A :=
  fun self w =>
    match body self w with
    | (Ok a, self', w') => (Ok a, self', w')
    | (Raise _, self', w') => handler self' w'
    end.

Declare Scope M_scope.
Delimit Scope M_scope with M.
Notation "x <- m ;; k" := (bind m (fun x => k))
  (at level 61, m at next level, right associativity) : M_scope.
Notation "m ;; k" := (bind m (fun _ => k))
  (at level 61, right associativity) : M_scope.
Local Open Scope M_scope.

(** ** Methods that wait for the network

    [__init__] puts the UDP socket in blocking mode ([settimeout(None)],
    line 81): a [recvfrom] on it returns when a datagram arrives and not
    before.  A method whose body gets as far as a [recvfrom] therefore
    ends with a result or does not end at all; the methods whose bodies
    never reach one stay in [M]. *)
Inductive outcome (A : Type) : Type :=
| Ends (r : result A)
| Blocks.
Arguments Ends {A} r.
Arguments Blocks {A}.

Definition Blocking (A : Type) : Type :=
  RatSocket -> World -> outcome A * RatSocket * World.

(** A computation of [M] always ends; it is used as one of [Blocking]
    without further notice. *)
Definition nonblocking {A} (m : M A) : Blocking A :=
  fun self w => let '(r, self', w') := m self w in (Ends r, self', w').
Coercion nonblocking : M >-> Blocking.

(** A call that never returns leaves the rest of the body unrun, as an
    exception does. *)
Definition bind_blocking {A B} (m : Blocking A) (k : A -> Blocking B)
  : Blocking B :=
  fun self w =>
    match m self w with
    | (Ends (Ok a), self', w') => k a self' w'
    | (Ends (Raise e), self', w') => (Ends (Raise e), self', w')
    | (Blocks, self', w') => (Blocks, self', w')
    end.

Declare Scope Blocking_scope.
Delimit Scope Blocking_scope with blocking.
Notation "x <- m ;; k" := (bind_blocking m (fun x => k))
  (at level 61, m at next level, right associativity) : Blocking_scope.
Notation "m ;; k" := (bind_blocking m (fun _ => k))
  (at level 61, right associativity) : Blocking_scope.

(** [print(msg)] under [if self.debug_mode]. *)
Definition debug_print (msg : string) : M unit :=
  fun self w =>
    if debug_mode self then (Ok tt, self, log (EvPrint msg) w)
    else (Ok tt, self, w).

(** [self.udp.settimeout(t)]. *)
Definition udp_settimeout (t : option Z) : M unit :=
  fun self w =>
    let u := udp self in
    (Ok tt, set_udp (mkUdp (fd u) t (bound_to u)) self,
     log (EvSetTimeout (fd u) t) w).

(** [self.udp.bind(a)]. *)
Definition udp_bind (a : address) : M unit :=
  fun self w =>
    let u := udp self in
    let w' := log (EvBind (fd u) a) w in
    if env_bind (env w) (count is_bind w)
    then (Ok tt, set_udp (mkUdp (fd u) (timeout u) (Some a)) self, w')
    else (Raise SocketError, self, w').

(** [self.udp.sendto(data, a)]; the number of bytes it returns is never
    used. *)
Definition udp_sendto (data : bytes) (a : address) : M unit :=
  fun self w =>
    let w' := log (EvSendTo (fd (udp self)) data a) w in
    if env_send (env w) (count is_sendto w) then (Ok tt, self, w')
    else (Raise SocketError, self, w').

(** [self.udp.recvfrom(bufsize)]: at most [bufsize] bytes of the next
    datagram, and its sender.  When no datagram arrives, the call raises
    [socket.timeout] once the timeout set by [settimeout] has passed, and
    on a socket without a timeout it never returns. *)
Definition udp_recvfrom (bufsize : nat) : Blocking (bytes * address) :=
  fun self w =>
    let w' := log (EvRecvFrom (fd (udp self)) bufsize) w in
    match env_recv (env w) (count is_recvfrom w) with
    | Datagram data from => (Ends (Ok (firstn bufsize data, from)), self, w')
    | RecvFails => (Ends (Raise SocketError), self, w')
    | NoDatagram =>
        match timeout (udp self) with
        | Some _ => (Ends (Raise SocketError), self, w')
        | None => (Blocks, self, w')
        end
    end.

(** [randrange(lo, hi)]: some integer of [lo, hi). *)
Definition randrange (lo hi : Z) : M Z :=
  fun self w =>
    (Ok (lo + env_rand (env w) (count is_randrange w) mod (hi - lo)), self,
     log (EvRandrange lo hi) w).

(** [RatSocket(debug_mode)] (lines 74-94); a new descriptor each time. *)
Definition RatSocket_init (debug_mode : bool) (w : World)
  : RatSocket * World :=
  let d := count is_socket w in
  let w := log (EvSocket d) w in
  let w := log (EvSetTimeout d None) w in
  (mkRatSocket SOCK_UNOPENED (mkUdp d None None) 0 0 0
     ("localhost"%string, 0) [] [] true 0 debug_mode, w).

(** [RatSocket(debug_mode)] called from inside a method. *)
Definition new_RatSocket (debug_mode : bool) : M RatSocket :=
  fun self w =>
    let '(c, w') := RatSocket_init debug_mode w in (Ok c, self, w').

(** ** Name resolution

    The names the module binds at top level (imports, constants and the
    three classes).  Methods are attributes of [RatSocket], not names of this
    scope: a method body that calls [construct_header(..)] and not
    [self.construct_header(..)] looks the name up here and in the
    builtins, finds nothing and raises [NameError]. *)
Definition module_globals : list string :=
  ["Enum"; "socket"; "AF_INET"; "SOCK_DGRAM"; "randrange";
   "RAT_MAX_SEQ_NUM"; "RAT_MAX_STREAM_ID"; "RAT_RETRY_TIMES";
   "RAT_HEADER_SIZE"; "UDP_HEADER_SIZE"; "RAT_PAYLOAD_SIZE";
   "RAT_DEFAULT_WINDOW"; "RAT_REPLY_TIMEOUT"; "RAT_BYE_TIMEOUT";
   "ERR_PREFIX"; "DEBUG_PREFIX"; "ERR_STATE"; "ERR_HEADER_INVALID";
   "ERR_MISALIGNED_WORDS"; "ERR_NUM_OUT_OF_RANGE"; "DEBUG_LISTEN";
   "DEBUG_LISTEN_HLO"; "DEBUG_CLI_SENT_HLO"; "DEBUG_CLI_RECV_HLOACK";
   "DEBUG_CLI_SENT_ACK"; "DEBUG_SERV_RECV_HLO"; "DEBUG_SERV_SENT_HLOACK";
   "DEBUG_SERV_RECV_ACK"; "DEBUG_SENT_ACK"; "DEBUG_RECV_ACK";
   "DEBUG_RETRY_FAIL"; "State"; "Flag"; "RAT_FLAG_ORDER"; "RatSocket"]%string.

(** The names of the [builtins] module (CPython 3.11). *)
Definition builtin_names : list string :=
  ["ArithmeticError"; "AssertionError"; "AttributeError"; "BaseException";
   "BaseExceptionGroup"; "BlockingIOError"; "BrokenPipeError";
   "BufferError"; "BytesWarning"; "ChildProcessError";
   "ConnectionAbortedError"; "ConnectionError"; "ConnectionRefusedError";
   "ConnectionResetError"; "DeprecationWarning"; "EOFError"; "Ellipsis";
   "EncodingWarning"; "EnvironmentError"; "Exception"; "ExceptionGroup";
   "False"; "FileExistsError"; "FileNotFoundError"; "FloatingPointError";
   "FutureWarning"; "GeneratorExit"; "IOError"; "ImportError";
   "ImportWarning"; "IndentationError"; "IndexError"; "InterruptedError";
   "IsADirectoryError"; "KeyError"; "KeyboardInterrupt"; "LookupError";
   "MemoryError"; "ModuleNotFoundError"; "NameError"; "None";
   "NotADirectoryError"; "NotImplemented"; "NotImplementedError";
   "OSError"; "OverflowError"; "PendingDeprecationWarning";
   "PermissionError"; "ProcessLookupError"; "RecursionError";
   "ReferenceError"; "ResourceWarning"; "RuntimeError"; "RuntimeWarning";
   "StopAsyncIteration"; "StopIteration"; "SyntaxError"; "SyntaxWarning";
   "SystemError"; "SystemExit"; "TabError"; "TimeoutError"; "True";
   "TypeError"; "UnboundLocalError"; "UnicodeDecodeError";
   "UnicodeEncodeError"; "UnicodeError"; "UnicodeTranslateError";
   "UnicodeWarning"; "UserWarning"; "ValueError"; "Warning";
   "ZeroDivisionError"; "abs"; "aiter"; "all"; "anext"; "any"; "ascii";
   "bin"; "bool"; "breakpoint"; "bytearray"; "bytes"; "callable"; "chr";
   "classmethod"; "compile"; "complex"; "copyright"; "credits"; "delattr";
   "dict"; "dir"; "divmod"; "enumerate"; "eval"; "exec"; "exit"; "filter";
   "float"; "format"; "frozenset"; "getattr"; "globals"; "hasattr"; "hash";
   "help"; "hex"; "id"; "input"; "int"; "isinstance"; "issubclass"; "iter";
   "len"; "license"; "list"; "locals"; "map"; "max"; "memoryview"; "min";
   "next"; "object"; "oct"; "open"; "ord"; "pow"; "print"; "property";
   "quit"; "range"; "repr"; "reversed"; "round"; "set"; "setattr"; "slice";
   "sorted"; "staticmethod"; "str"; "sum"; "super"; "tuple"; "type";
   "vars"; "zip"]%string.

(** Reading a bare name that the function does not bind: the module's
    globals are searched, then the builtins. *)
Definition load_global (name : string) : result unit :=
  if existsb (String.eqb name) (module_globals ++ builtin_names)
  then Ok tt
  else Raise (NameError name).

(** ** The methods of [RatSocket] (rat.py lines 96-314) *)

(** The argument of [state_check]: the callers pass one [State] member
    ([listen], [accept]) or a list of them ([recv]). *)
Inductive state_arg : Type :=
| OneState (st : State)
| StateList (l : list State).

(** [state_check(state)] (lines 332-338).  The outer test compares with
    [!=]; a member never equals a list.  The inner test applies [in] to the
    argument: on a list it is membership, on a single [State] member it
    raises [TypeError], because an [Enum] member is not iterable. *)
Definition state_check (state : state_arg) : M unit :=
  fun self w =>
    match state with
    | OneState st =>
        if negb (State_eqb (current_state self) st)
        then (Raise TypeError, self, w)
        else (Ok tt, self, w)
    | StateList l =>
        if negb (existsb (State_eqb (current_state self)) l)
        then (Raise (IOError ERR_STATE), self, w)
        else (Ok tt, self, w)
    end.

(** [listen(address, port, num_connections)] (lines 96-106). *)
Definition listen (addr : string) (port : Z) (n : Z) : M unit :=
  state_check (OneState SOCK_UNOPENED) ;;
  udp_bind (addr, port) ;;
  assign (set_num_connections n) ;;
  assign (set_current_state SOCK_SERVOPEN) ;;
  debug_print DEBUG_LISTEN.

(** What [accept] returns: [False] or the client socket. *)
Inductive accept_value : Type :=
| AcceptFalse
| AcceptClient (client : RatSocket).

(** [accept()] (lines 108-163).  The receive of line 123 is where the
    method waits for the HLO.  The client object is appended to
    [self.active_streams] by reference, so the list shows the increment of
    its [seq_num] made on the next line.  The condition of the retry loop
    (line 143) first compares [retry_times] with 0 and then, since it is
    [RAT_RETRY_TIMES], evaluates the name [flag_header], which nothing
    binds: the [NameError] is raised outside the [try] of the loop body, so
    lines 144-162 never run. *)
Definition accept : Blocking accept_value :=
  (state_check (OneState SOCK_SERVOPEN) ;;
   let retry_times := RAT_RETRY_TIMES in
   debug_print DEBUG_LISTEN_HLO ;;
   dgram <- udp_recvfrom RAT_HEADER_SIZE ;;
   let '(hlo, address) := dgram in
   hlo <- lift (decode_rat_header hlo) ;;
   flags <- lift (flag_decode (h_flags hlo)) ;;
   if flag_in HLO flags then
     udp_settimeout (Some RAT_REPLY_TIMEOUT) ;;
     debug_print DEBUG_SERV_RECV_HLO ;;
     client <- new_RatSocket false ;;
     let client := set_remote_addr address client in
     let client := set_current_state SOCK_HLORECV client in
     r <- randrange 1 RAT_MAX_STREAM_ID ;;
     let client := set_stream_id r client in
     let client := set_window_size RAT_DEFAULT_WINDOW client in
     let client := set_seq_num (seq_num client + 1) client in
     assign (fun self =>
               set_active_streams (active_streams self ++ [client]) self) ;;
     match retry_times with
     | S _ => raise (NameError "flag_header")
     | O => ret AcceptFalse
     end
   else ret AcceptFalse)%blocking.

(** [allow_keepalives(value)] (lines 165-168). *)
Definition allow_keepalives (value : bool) : M unit :=
  assign (set_obey_keepalives value).

(** [connect(address, port, send_keepalives)] (lines 170-205).  The method
    assigns [retry_times] (line 198), which makes it a local variable, and
    reads it in the loop condition (line 185) before any assignment: the
    read raises [UnboundLocalError], outside the [try], so lines 186-205
    never run. *)
Definition connect (addr : string) (port : Z) (send_keepalives : bool)
  : M unit :=
  udp_settimeout (Some RAT_REPLY_TIMEOUT) ;;
  assign (set_remote_addr (addr, port)) ;;
  debug_print DEBUG_CLI_SENT_HLO ;;
  raise (UnboundLocalError "retry_times").

(** [send(bytes)] (lines 207-226).  The first loop runs while bytes remain;
    its body slices the stream and then evaluates the bare name
    [construct_header], a [NameError].  With nothing to send the loop is
    skipped, the queue stays empty, the second loop is skipped too and the
    method returns [None]. *)
Definition send (data_ : bytes) : M unit :=
  let send_queue : list bytes := [] in
  if negb (List.length data_ =? 0)%nat then
    let data := slice 0 RAT_PAYLOAD_SIZE data_ in
    let data_ := skipn RAT_PAYLOAD_SIZE data_ in
    raise (NameError "construct_header")
  else
    match send_queue with
    | _ :: _ => raise (NameError "window_size")
    | [] => ret tt
    end.

(** [recv(buffer_size)] (lines 228-265).  The first statement calls the
    bare name [state_check]; the callee is evaluated before its argument,
    and nothing binds it: [NameError]. *)
Definition recv (buffer_size : Z) : M bytes :=
  raise (NameError "state_check").

(** [close()] (lines 267-273): the body is [pass]. *)
Definition close : M unit := ret tt.

(** The loop of [ack] (lines 283-288), by recursion on [retry_times]: an
    attempt that raises costs one retry, an attempt that does not sets
    [sent] and ends the loop. *)
Fixpoint ack_loop (ack : bytes) (retry_times : nat) : M unit :=
  match retry_times with
  | O => ret tt
  | S retry_times' =>
      try_except
        (a <- get remote_addr ;; udp_sendto ack a)
        (ack_loop ack retry_times')
  end.

(** [ack()] (lines 275-289). *)
Definition ack : M unit :=
  self <- get (fun s => s) ;;
  ack <- lift (construct_header self 0 (flag_set [ACK]) 0) ;;
  ack_loop ack RAT_RETRY_TIMES ;;
  assign (fun self => set_seq_num (seq_num self + 1) self).

(** [nack(seq_nums)] (lines 291-314).  Line 295 builds a list from a
    generator whose body calls the bare name [zero_pad]: the body runs once
    per element, so a non-empty argument raises [NameError] and an empty
    one gives the empty list.  With the empty list the joined text is
    empty, the alignment test passes, the header is built, and line 304
    adds a [str] to that [bytes] object, a [TypeError]; lines 305-314 never
    run. *)
Definition nack (seq_nums : list Z) : M unit :=
  match seq_nums with
  | _ :: _ => raise (NameError "zero_pad")
  | [] =>
      let seq_nums : list pystr := [] in
      let length := Z.of_nat (List.length (List.concat seq_nums)) in
      if negb (length mod 16 =? 0) then raise (IOError ERR_MISALIGNED_WORDS)
      else
        self <- get (fun s => s) ;;
        ack <- lift (construct_header self length (flag_set [NACK])
                       (Z.of_nat (List.length seq_nums))) ;;
        raise TypeError
  end.






(** ** The test script (server-test.py) *)

Definition TEST_BYTESTREAM : bytes := b_lit "Make sure to drink your ovaltine.".

Definition MSG_CONSTRUCTED : string :=
  "New RatSocket construction successful!".
Definition MSG_LISTENING (argv1 : string) : string :=
  "RatSocket now listening for connections on 127.0.0.1:" ++ argv1 ++ "!".
Definition MSG_ACCEPTED : string :=
  "RatSocket accepted connection from client!".
Definition MSG_NO_ACK : string :=
  "Error: RatSocket didn't receive ACK response!".
Definition MSG_RECEIVED : string :=
  "RatSocket successfully receieved datagram from client!".

(** [print(msg)]. *)
Definition print (msg : string) : M unit :=
  fun self w => (Ok tt, self, log (EvPrint msg) w).

(** What [int(argv[1])] finds on the command line: no argument
    ([IndexError]), text that is no integer ([ValueError]), or text and the
    integer it denotes. *)
Inductive argv1_case : Type :=
| NoArgument
| NotAnInteger (text : string)
| IntegerArgument (text : string) (value : Z).

Definition int_argv1 (a : argv1_case) : result Z :=
  match a with
  | NoArgument => Raise IndexError
  | NotAnInteger _ => Raise ValueError
  | IntegerArgument _ value => Ok value
  end.

Definition text_argv1 (a : argv1_case) : string :=
  match a with
  | NoArgument => EmptyString
  | NotAnInteger text => text
  | IntegerArgument text _ => text
  end.

(** [main()] of the test script.  [same_object] answers the identity test
    [test_data is TEST_BYTESTREAM], which the bytes alone do not decide. *)
Definition test_main (a : argv1_case) (same_object : bytes -> bool)
    (w : World) : outcome unit * RatSocket * World :=
  let '(server_sock, w) := RatSocket_init true w in
  (print MSG_CONSTRUCTED ;;
   port <- lift (int_argv1 a) ;;
   listen "127.0.0.1" port 5 ;;
   print (MSG_LISTENING (text_argv1 a)) ;;
   client <- accept ;;
   match client with
   | AcceptClient _ => print MSG_ACCEPTED
   | AcceptFalse => print MSG_NO_ACK
   end ;;
   test_data <- recv (Z.of_nat (List.length TEST_BYTESTREAM)) ;;
   if same_object test_data then print MSG_RECEIVED else ret tt)%blocking
    server_sock w.

(** * Vocabulary of the properties *)

(** ** Binary digits *)

Definition is_bit (c : ascii) : bool := Ascii.eqb c "0" || Ascii.eqb c "1".

Definition bit_char (b : bool) : ascii := if b then "1"%char else "0"%char.

(** A 7-bit character: UTF-8 writes it as the one octet it is. *)
Definition ascii7 (c : ascii) : Prop := (ord c < 128)%N.

(** What [bin(n)[2:]] is: the digits of [n], and for a negative [n] the
    ["b"] of the prefix in front of them. *)
Definition bin_tail (n : Z) : list ascii :=
  match n with
  | Z0 => ["0"%char]
  | Zpos p => pos_bits p
  | Zneg p => "b"%char :: pos_bits p
  end.

(** The number a string of binary digits denotes, most significant first. *)
Fixpoint bits_value (l : list ascii) (acc : Z) : Z :=
  match l with
  | [] => acc
  | c :: t => bits_value t (if Ascii.eqb c "1" then 2 * acc + 1 else 2 * acc)
  end.

(** A numeric field of the header: [w] binary digits. *)
Definition bit_field (w : nat) (f : bytes) : Prop :=
  List.length f = w /\ forallb is_bit f = true.

(** An 8-flag field value: eight characters, each ["0"] or ["1"]. *)
Definition flag_field (flags : pystr) : Prop :=
  exists f : bytes, bit_field 8 f /\ flags = map ord f.

(** ** Sets of flags *)

(** The flags of [F], listed in the fixed order, each once. *)
Definition canonical (F : list Flag) : list Flag :=
  filter (fun f => flag_in f F) RAT_FLAG_ORDER.

(** The sublist a mask of booleans selects. *)
Fixpoint pick {A} (mask : list bool) (l : list A) : list A :=
  match mask, l with
  | b :: m, x :: t => if b then x :: pick m t else pick m t
  | _, _ => []
  end.

(** ** Outcomes of methods *)

(** [wp m Q self w]: running [m] on [self] and [w] ends in an outcome, a
    socket and a world that satisfy [Q]. *)
Definition wp {A} (m : M A) (Q : result A -> RatSocket -> World -> Prop)
  : RatSocket -> World -> Prop :=
  fun self w => let '(r, self', w') := m self w in Q r self' w'.

(** [w'] continues [w] without a further [sendto]. *)
Definition no_send (w w' : World) : Prop :=
  count is_sendto w' = count is_sendto w.

(** [wp_blocking m Q self w]: the same for a method that may wait; [Q]
    also speaks of the call that never returns, and then of the socket and
    the world it waits in. *)
Definition wp_blocking {A} (m : Blocking A)
    (Q : outcome A -> RatSocket -> World -> Prop)
  : RatSocket -> World -> Prop :=
  fun self w => let '(r, self', w') := m self w in Q r self' w'.

(** The listener that has registered [child]: [accept] has set the reply
    timeout on its UDP socket (line 128) and appended the child to
    [active_streams] (line 138). *)
Definition with_child (child self : RatSocket) : RatSocket :=
  set_active_streams (active_streams self ++ [child])
    (set_udp (mkUdp (fd (udp self)) (Some RAT_REPLY_TIMEOUT)
                (bound_to (udp self))) self).

(** The client socket [accept] prepares for the sender of an HLO (lines
    131-139): a new socket on descriptor [d] with the identifier [r]. *)
Definition child_of (d : nat) (from : address) (r : Z) : RatSocket :=
  mkRatSocket SOCK_HLORECV (mkUdp d None None) r 1 RAT_DEFAULT_WINDOW from
    [] [] true 0 false.

(** The socket after the assignments of [connect] (lines 178-179): the
    reply timeout is set and [remote_addr] is the address given. *)
Definition redirected (a : address) (self : RatSocket) : RatSocket :=
  set_remote_addr a
    (set_udp (mkUdp (fd (udp self)) (Some RAT_REPLY_TIMEOUT)
                (bound_to (udp self))) self).

(** The listener after [accept]: it is what it was, or it has registered
    one child. *)
Definition listener_after (self self' : RatSocket) : Prop :=
  self' = self \/ exists d from r, self' = with_child (child_of d from r) self.

(** The next [recvfrom] on [self] in [w] never returns: the socket has no
    timeout and no datagram arrives. *)
Definition recv_blocks (self : RatSocket) (w : World) : Prop :=
  timeout (udp self) = None
  /\ env_recv (env w) (count is_recvfrom w) = NoDatagram.

(** The ways [accept] ends: it returns [False] and the listener is what it
    was; it waits for ever, on a listener without a timeout that is what
    it was; or it raises.  It does not return a client. *)
Definition accept_ends (self : RatSocket) (r : outcome accept_value)
    (self' : RatSocket) : Prop :=
  (r = Ends (Ok AcceptFalse) /\ self' = self)
  \/ (r = Blocks /\ self' = self /\ timeout (udp self) = None)
  \/ (exists e, r = Ends (Raise e) /\ listener_after self self').

(** On every socket [ack] returns normally, adds one to [seq_num] and
    keeps the other four attributes. *)
Definition ack_never_raises : Prop :=
  forall self w,
    exists self' w',
      ack self w = (Ok tt, self', w')
      /\ seq_num self' = seq_num self + 1
      /\ current_state self' = current_state self
      /\ stream_id self' = stream_id self
      /\ window_size self' = window_size self
      /\ remote_addr self' = remote_addr self.

(** [n] calls of [ack()] in a row. *)
Fixpoint ack_times (n : nat) : M unit :=
  match n with
  | O => ret tt
  | S k => ack ;; ack_times k
  end.

(** ** Sockets and worlds of the examples *)

Definition world0 (e : Env) : World := mkWorld e [].

(** An environment in which the socket layer refuses every datagram sent
    and nothing is ever received. *)
Definition silent_env : Env :=
  mkEnv (fun _ => NoDatagram) (fun _ => false) (fun _ => true) (fun _ => 0).

(** The segment a client's HLO is: stream 0, sequence number 0, no
    payload, flag HLO. *)
Definition hlo_segment : bytes :=
  b_lit "0000000000000000000000000000000000000000000000000000010000000000".

(** An environment in which the HLO arrives and every later receive times
    out; datagrams sent are accepted by the socket layer. *)
Definition hlo_then_silence : Env :=
  mkEnv (fun n => match n with
                  | O => Datagram hlo_segment ("10.0.0.2"%string, 4000)
                  | S _ => NoDatagram
                  end)
        (fun _ => true) (fun _ => true) (fun _ => 1234).

(** An established connection: stream 42, next sequence number 7. *)
Definition example_socket : RatSocket :=
  mkRatSocket SOCK_ESTABLISHED (mkUdp 0 (Some 4) None) 42 7 5
    ("127.0.0.1"%string, 5001) [] [] true 0 false.

(** The same connection with its state set to [SOCK_CLOSED]. *)
Definition closed_socket : RatSocket :=
  set_current_state SOCK_CLOSED example_socket.

(** A socket as [RatSocket()] makes it, and the world after the call. *)
Definition fresh_socket : RatSocket :=
  fst (RatSocket_init false (world0 silent_env)).
Definition fresh_world : World :=
  snd (RatSocket_init false (world0 silent_env)).

(** A listener: a new socket after [listen("127.0.0.1", 5001, 5)], in a
    world where the HLO arrives and nothing else does. *)
Definition listening : result unit * RatSocket * World :=
  let '(s, w) := RatSocket_init false (world0 hlo_then_silence) in
  listen "127.0.0.1" 5001 5 s w.
Definition listener : RatSocket := snd (fst listening).
Definition listener_world : World := snd listening.

(** ** Vocabulary of the further properties *)

(** The integers [zero_pad] pads to [w] characters without complaint. *)
Definition fits (n : Z) (w : nat) : Prop :=
  - 2 ^ Z.of_nat (w - 1) < n < 2 ^ Z.of_nat w.

(** A socket with the two numbers a header takes from it. *)
Definition with_ids (stream seq : Z) (self : RatSocket) : RatSocket :=
  set_seq_num seq (set_stream_id stream self).

(** A [str] of 7-bit characters. *)
Definition ascii_text (s : pystr) : Prop := Forall (fun c => (c < 128)%N) s.

(** The four numbers of a header lie in the ranges of their fields. *)
Definition in_range (self : RatSocket) (length offset : Z) : Prop :=
  0 <= stream_id self <= 65535 /\ 0 <= seq_num self <= 65535
  /\ 0 <= length <= 65535 /\ 0 <= offset <= 255.

(** Each of the four numbers is one [zero_pad] accepts for its field. *)
Definition all_fit (self : RatSocket) (length offset : Z) : Prop :=
  fits (stream_id self) 16 /\ fits (seq_num self) 16
  /\ fits length 16 /\ fits offset 8.

(** What [flag_set] writes for a character [flag_decode] has read: ["1"]
    stays, anything else becomes ["0"]. *)
Definition normal_bit (c : N) : N :=
  if (c =? ord "1")%N then ord "1" else ord "0".

(** The network calls of a world, in order. *)
Definition network_calls (w : World) : list io_event :=
  filter network_io (trace w).

(** [w'] is [w] after further calls, each of which satisfies [P]. *)
Definition adds (P : io_event -> Prop) (w w' : World) : Prop :=
  env w' = env w
  /\ exists added, trace w' = trace w ++ added /\ Forall P added.

(** [k] transmissions of [data] from [self] to its peer. *)
Definition sends (self : RatSocket) (data : bytes) (k : nat)
  : list io_event :=
  repeat (EvSendTo (fd (udp self)) data (remote_addr self)) k.

(** The attempts the retry loop of [ack] makes with a budget of [n], when
    the next [sendto] is the [start]-th of the world: it stops after the
    first one the socket layer accepts. *)
Fixpoint attempts (accepted : nat -> bool) (start n : nat) : nat :=
  match n with
  | O => O
  | S n' => if accepted start then 1%nat
            else S (attempts accepted (S start) n')
  end.

(** The segment of a bare ACK on stream 42 with sequence number 7. *)
Definition ack_segment : bytes :=
  b_lit "0000000000101010000000000000011100000000000000001000000000000000".

(** An environment whose first datagram is that ACK, and in which the
    socket layer refuses the first two transmissions. *)
Definition ack_arrives : Env :=
  mkEnv (fun n => match n with
                  | O => Datagram ack_segment ("10.0.0.2"%string, 4000)
                  | S _ => RecvFails
                  end)
        (fun n => (2 <=? n)%nat) (fun _ => true) (fun _ => 0).

(** A socket in [SOCK_SERVOPEN]. *)
Definition open_socket : RatSocket :=
  set_current_state SOCK_SERVOPEN example_socket.

(** A call that is not a report of success by the test script. *)
Definition quiet (e : io_event) : Prop :=
  e <> EvPrint MSG_ACCEPTED /\ e <> EvPrint MSG_RECEIVED.

(** * Properties *)

(** ** The Python primitives on sample inputs *)

Example bin_samples :
  bin 5 = s_lit "0b101" /\ bin 0 = s_lit "0b0" /\ bin (-1) = s_lit "-0b1".
Proof. repeat split; reflexivity. Qed.

Example int2_samples :
  int2 (b_lit "0000000000101010") = Ok 42
  /\ int2 (b_lit " -0b_1_0 ") = Ok (-2)
  /\ int2 (b_lit "0B1") = Ok 1
  /\ int2 (b_lit "-0") = Ok 0
  /\ int2 [chr8 11; "1"%char; chr8 12] = Ok 1
  /\ map int2
       [[]; b_lit "  "; b_lit "0b"; b_lit "0b_"; b_lit "_1";
        b_lit "1_"; b_lit "1__0"; b_lit "0_b1"; b_lit "- 1"; b_lit "+-1";
        b_lit "1 1"; b_lit "00000000000000b1"; ["1"%char; chr8 0]]
     = repeat (Raise ValueError) 13.
Proof. repeat split; reflexivity. Qed.

Example utf8_samples :
  utf8_decode [chr8 195; chr8 169] = Ok [233%N]
  /\ utf8_decode [chr8 226; chr8 130; chr8 172] = Ok [8364%N]
  /\ utf8_decode [chr8 240; chr8 159; chr8 152; chr8 128] = Ok [128512%N]
  /\ utf8_encode [233%N; 8364%N; 128512%N]
     = Ok [chr8 195; chr8 169; chr8 226; chr8 130; chr8 172;
           chr8 240; chr8 159; chr8 152; chr8 128]
  /\ utf8_encode [55296%N] = Raise UnicodeEncodeError
  /\ map utf8_decode
       [[chr8 192; chr8 128]; [chr8 237; chr8 160; chr8 128];
        [chr8 244; chr8 144; chr8 128; chr8 128];
        [chr8 224; chr8 159; chr8 128];
        [chr8 240; chr8 143; chr8 128; chr8 128]; [chr8 255]; [chr8 195]]
     = repeat (Raise UnicodeDecodeError) 7.
Proof. repeat split; reflexivity. Qed.

Example zero_pad_samples :
  zero_pad 42 16 = Ok (b_lit "0000000000101010")
  /\ zero_pad 0 8 = Ok (b_lit "00000000")
  /\ zero_pad 65535 16 = Ok (b_lit "1111111111111111")
  /\ zero_pad 65536 16 = Raise NumberOutOfRange
  /\ zero_pad (-65536) 16 = Raise NumberOutOfRange.
Proof. repeat split; reflexivity. Qed.

(** The HLO of the examples is the header a new client builds. *)
Example hlo_segment_built :
  construct_header fresh_socket 0 (flag_set [HLO]) 0 = Ok hlo_segment.
Proof. reflexivity. Qed.

(** ** Characters and UTF-8 on ASCII text *)

Lemma chr8_ord (c : ascii) : chr8 (ord c) = c.
Proof. apply ascii_N_embedding. Qed.

Lemma is_bit_cases (c : ascii) :
  is_bit c = true -> c = "0"%char \/ c = "1"%char.
Proof.
  unfold is_bit. intros H. apply orb_true_iff in H.
  destruct H as [H | H]; apply Ascii.eqb_eq in H; auto.
Qed.

Lemma is_bit_ascii7 (c : ascii) : is_bit c = true -> ascii7 c.
Proof.
  intros H. destruct (is_bit_cases c H); subst; unfold ascii7; cbv; reflexivity.
Qed.

Lemma utf8_encode_ascii (l : list ascii) :
  Forall ascii7 l -> utf8_encode (map ord l) = Ok l.
Proof.
  induction 1 as [| c t Hc _ IH]; [reflexivity |].
  cbn [map utf8_encode]. rewrite IH.
  unfold utf8_encode_cp. apply N.ltb_lt in Hc. rewrite Hc.
  cbn. now rewrite chr8_ord.
Qed.

Lemma utf8_decode_cons_ascii (c : ascii) (t : bytes) :
  ascii7 c ->
  utf8_decode (c :: t) = (try! r <- utf8_decode t; Ok (ord c :: r)).
Proof.
  intros Hc. apply N.ltb_lt in Hc. cbn [utf8_decode]. now rewrite Hc.
Qed.

Lemma utf8_decode_ascii (l : list ascii) :
  Forall ascii7 l -> utf8_decode l = Ok (map ord l).
Proof.
  induction 1 as [| c t Hc _ IH]; [reflexivity |].
  rewrite utf8_decode_cons_ascii by assumption. now rewrite IH.
Qed.

(** ** Binary numerals *)

Lemma bin_skip2 (n : Z) : skipn 2 (bin n) = map ord (bin_tail n).
Proof. destruct n; reflexivity. Qed.

Lemma pos_bits_bits (p : positive) : forallb is_bit (pos_bits p) = true.
Proof.
  induction p; cbn [pos_bits]; try reflexivity;
    rewrite forallb_app, IHp; reflexivity.
Qed.

Lemma pos_bits_length (p : positive) :
  List.length (pos_bits p) = Pos.size_nat p.
Proof.
  induction p; cbn [pos_bits Pos.size_nat]; try reflexivity;
    rewrite length_app, IHp; cbn; lia.
Qed.

Lemma size_nat_le_iff (p : positive) (w : nat) :
  (Pos.size_nat p <= w)%nat <-> Zpos p < 2 ^ Z.of_nat w.
Proof.
  revert w. induction p as [q IH | q IH |]; intros w; cbn [Pos.size_nat].
  - destruct w as [| w]; [cbn; lia |].
    rewrite Nat2Z.inj_succ, Z.pow_succ_r by lia.
    specialize (IH w). lia.
  - destruct w as [| w]; [cbn; lia |].
    rewrite Nat2Z.inj_succ, Z.pow_succ_r by lia.
    specialize (IH w). lia.
  - destruct w as [| w]; [cbn; lia |].
    rewrite Nat2Z.inj_succ, Z.pow_succ_r by lia.
    assert (0 < 2 ^ Z.of_nat w) by (apply Z.pow_pos_nonneg; lia). lia.
Qed.

Lemma bin_tail_ascii7 (n : Z) : Forall ascii7 (bin_tail n).
Proof.
  assert (H : forall p, Forall ascii7 (pos_bits p)).
  { intros p. apply Forall_forall. intros c Hc. apply is_bit_ascii7.
    pose proof (pos_bits_bits p) as Hb.
    rewrite forallb_forall in Hb. now apply Hb. }
  destruct n; cbn [bin_tail]; auto.
  - repeat constructor.
  - constructor; [cbv; reflexivity | apply H].
Qed.

(** [zero_pad] in closed form, for every integer. *)
Lemma zero_pad_spec (n w : Z) :
  zero_pad n w =
    if w - Z.of_nat (List.length (bin_tail n)) <? 0
    then Raise NumberOutOfRange
    else Ok (repeat "0"%char
               (Z.to_nat (w - Z.of_nat (List.length (bin_tail n))))
             ++ bin_tail n).
Proof.
  unfold zero_pad. rewrite bin_skip2, length_map.
  destruct (_ <? 0); [reflexivity |].
  change (ord "0") with (ord "0"%char).
  rewrite <- map_repeat, <- map_app. apply utf8_encode_ascii.
  apply Forall_app. split; [| apply bin_tail_ascii7].
  apply Forall_forall. intros c Hc. apply repeat_spec in Hc. subst.
  cbv. reflexivity.
Qed.

Lemma bits_value_app (l1 l2 : list ascii) (acc : Z) :
  bits_value (l1 ++ l2) acc = bits_value l2 (bits_value l1 acc).
Proof. revert acc. induction l1; intros; cbn; auto. Qed.

Lemma bits_value_zeros (k : nat) : bits_value (repeat "0"%char k) 0 = 0.
Proof. induction k; cbn; auto. Qed.

Lemma bits_value_pos (p : positive) : bits_value (pos_bits p) 0 = Zpos p.
Proof.
  induction p; cbn [pos_bits]; try reflexivity;
    rewrite bits_value_app, IHp; cbn; lia.
Qed.

Lemma scan_bin_bits (l : list ascii) (acc : Z) (n : nat) :
  forallb is_bit l = true ->
  scan_bin l false acc n = Some (bits_value l acc, (n + List.length l)%nat, []).
Proof.
  revert acc n. induction l as [| c t IH]; intros acc n H.
  - cbn. now rewrite Nat.add_0_r.
  - cbn [forallb] in H. apply andb_true_iff in H. destruct H as [Hc Ht].
    destruct (is_bit_cases c Hc); subst c; cbn [scan_bin bits_value];
      cbn [Ascii.eqb Bool.eqb]; rewrite (IH _ _ Ht); cbn [List.length];
      now rewrite Nat.add_succ_r.
Qed.

(** On a non-empty string of binary digits [int(.., 2)] is the number the
    digits denote. *)
Lemma int2_bits (l : list ascii) :
  l <> [] -> forallb is_bit l = true -> int2 l = Ok (bits_value l 0).
Proof.
  intros Hne H.
  destruct l as [| c t]; [congruence |].
  pose proof (scan_bin_bits (c :: t) 0 0 H) as Hscan.
  cbn [forallb] in H. apply andb_true_iff in H. destruct H as [Hc Ht].
  assert (Hpre : skip_prefix (c :: t) = c :: t).
  { destruct t as [| c1 t']; [reflexivity |].
    cbn [forallb] in Ht. apply andb_true_iff in Ht. destruct Ht as [Hc1 _].
    unfold skip_prefix.
    destruct (is_bit_cases c1 Hc1); subst c1;
      destruct (Ascii.eqb c "0"); reflexivity. }
  assert (Hstrip : lstrip (c :: t) = c :: t).
  { destruct (is_bit_cases c Hc); subst c; reflexivity. }
  assert (Hsign : split_sign (c :: t) = (false, c :: t)).
  { destruct (is_bit_cases c Hc); subst c; reflexivity. }
  assert (Hus : Ascii.eqb c "_" = false).
  { destruct (is_bit_cases c Hc); subst c; reflexivity. }
  unfold int2. rewrite Hstrip, Hsign, Hpre, Hus, Hscan. reflexivity.
Qed.

Lemma bin_tail_length_le (n : Z) (w : nat) :
  (0 < w)%nat -> 0 <= n < 2 ^ Z.of_nat w ->
  (List.length (bin_tail n) <= w)%nat.
Proof.
  intros Hw [Hlo Hhi]. destruct n as [| p | p]; cbn [bin_tail].
  - cbn. lia.
  - rewrite pos_bits_length. now apply size_nat_le_iff.
  - lia.
Qed.

Lemma zero_pad_in_range (n : Z) (w : nat) :
  (0 < w)%nat -> 0 <= n < 2 ^ Z.of_nat w ->
  exists f, zero_pad n (Z.of_nat w) = Ok f /\ bit_field w f
            /\ bits_value f 0 = n.
Proof.
  intros Hw Hn. pose proof (bin_tail_length_le n w Hw Hn) as Hlen.
  rewrite zero_pad_spec.
  destruct (Z.ltb_spec (Z.of_nat w - Z.of_nat (List.length (bin_tail n))) 0);
    [lia |].
  eexists. split; [reflexivity |]. split; [split |].
  - rewrite length_app, repeat_length. lia.
  - rewrite forallb_app. apply andb_true_iff. split.
    + apply forallb_forall. intros c Hc. apply repeat_spec in Hc. now subst.
    + destruct n as [| p | p]; [reflexivity | apply pos_bits_bits | lia].
  - rewrite bits_value_app, bits_value_zeros.
    destruct n as [| p | p]; [reflexivity | apply bits_value_pos | lia].
Qed.

Lemma bit_field_int2 (w : nat) (f : bytes) :
  (0 < w)%nat -> bit_field w f -> int2 f = Ok (bits_value f 0).
Proof.
  intros Hw [Hlen Hbits]. apply int2_bits; [| assumption].
  intros ->. cbn in Hlen. lia.
Qed.

(** ** Slices of a concatenation *)

Lemma slice_prefix {A} (j : nat) (a l : list A) :
  List.length a = j -> slice 0 j (a ++ l) = a.
Proof.
  intros <-. unfold slice. cbn [skipn]. rewrite Nat.sub_0_r.
  rewrite firstn_app, Nat.sub_diag, firstn_all. cbn. apply app_nil_r.
Qed.

Lemma slice_skip {A} (k i j : nat) (a l : list A) :
  List.length a = k -> (k <= i)%nat ->
  slice i j (a ++ l) = slice (i - k) (j - k) l.
Proof.
  intros <- Hk. unfold slice. rewrite skipn_app, skipn_all2 by exact Hk.
  cbn [app]. f_equal. lia.
Qed.

Lemma slice_all {A} (j : nat) (a : list A) :
  List.length a = j -> slice 0 j a = a.
Proof.
  intros <-. unfold slice. cbn [skipn]. rewrite Nat.sub_0_r.
  apply firstn_all.
Qed.

(** ** The flag field *)

Lemma flag_set_unfold (F : list Flag) :
  flag_set F =
    map ord (map (fun flag => bit_char (flag_in flag F)) RAT_FLAG_ORDER).
Proof.
  unfold flag_set, RAT_FLAG_ORDER. cbn [fold_left map].
  repeat match goal with
         | |- context [flag_in ?f F] =>
             let b := fresh "b" in
             generalize (flag_in f F); intros b
         end.
  repeat match goal with b : bool |- _ => destruct b end; reflexivity.
Qed.

Lemma flag_set_field (F : list Flag) : flag_field (flag_set F).
Proof.
  exists (map (fun flag => bit_char (flag_in flag F)) RAT_FLAG_ORDER).
  split; [| apply flag_set_unfold]. split; [reflexivity |].
  unfold RAT_FLAG_ORDER. cbn [map forallb].
  repeat match goal with
         | |- context [flag_in ?f F] => destruct (flag_in f F)
         end; reflexivity.
Qed.

(** ** The header codec *)

Lemma zero_pad_16 (n : Z) :
  0 <= n <= 65535 ->
  exists f, zero_pad n 16 = Ok f /\ bit_field 16 f /\ int2 f = Ok n.
Proof.
  intros Hn.
  destruct (zero_pad_in_range n 16) as (f & Hf & Hb & Hv);
    [lia | change (2 ^ Z.of_nat 16) with 65536; lia |].
  exists f. split; [exact Hf |]. split; [exact Hb |].
  rewrite <- Hv. apply (bit_field_int2 16); [lia | exact Hb].
Qed.

Lemma zero_pad_8 (n : Z) :
  0 <= n <= 255 ->
  exists f, zero_pad n 8 = Ok f /\ bit_field 8 f /\ int2 f = Ok n.
Proof.
  intros Hn.
  destruct (zero_pad_in_range n 8) as (f & Hf & Hb & Hv);
    [lia | change (2 ^ Z.of_nat 8) with 256; lia |].
  exists f. split; [exact Hf |]. split; [exact Hb |].
  rewrite <- Hv. apply (bit_field_int2 8); [lia | exact Hb].
Qed.

Lemma bit_field_ascii7 (w : nat) (f : bytes) :
  bit_field w f -> Forall ascii7 f.
Proof.
  intros [_ Hb]. apply Forall_forall. intros c Hc.
  rewrite forallb_forall in Hb. apply is_bit_ascii7. now apply Hb.
Qed.

(** The header of in-range fields, field by field. *)
Lemma construct_header_fields (self : RatSocket) (length : Z)
    (flags : pystr) (offset : Z) :
  0 <= stream_id self <= 65535 -> 0 <= seq_num self <= 65535 ->
  0 <= length <= 65535 -> 0 <= offset <= 255 -> flag_field flags ->
  exists f1 f2 f3 ff f5,
    construct_header self length flags offset
      = Ok (f1 ++ f2 ++ f3 ++ ff ++ f5)
    /\ (bit_field 16 f1 /\ int2 f1 = Ok (stream_id self))
    /\ (bit_field 16 f2 /\ int2 f2 = Ok (seq_num self))
    /\ (bit_field 16 f3 /\ int2 f3 = Ok length)
    /\ (bit_field 8 ff /\ flags = map ord ff)
    /\ (bit_field 8 f5 /\ int2 f5 = Ok offset).
Proof.
  intros H1 H2 H3 H5 (ff & Hff & ->).
  destruct (zero_pad_16 _ H1) as (f1 & E1 & B1 & V1).
  destruct (zero_pad_16 _ H2) as (f2 & E2 & B2 & V2).
  destruct (zero_pad_16 _ H3) as (f3 & E3 & B3 & V3).
  destruct (zero_pad_8 _ H5) as (f5 & E5 & B5 & V5).
  exists f1, f2, f3, ff, f5.
  split; [| intuition reflexivity].
  unfold construct_header.
  rewrite E1, E2, E3, (utf8_encode_ascii ff (bit_field_ascii7 8 ff Hff)), E5.
  cbn [rbind app]. now rewrite <- !app_assoc.
Qed.

(** C2.  Header round trip: when [stream_id], [seq_num] and [length] lie in
    [0, 65535], [offset] lies in [0, 255] and [flags] is an 8-flag field
    value, [construct_header] succeeds and [decode_rat_header] maps its
    output back to exactly the five values that were encoded.  Both are
    functions of their arguments alone: they return no socket and no
    world, so neither has an effect on either. *)
Theorem header_roundtrip (self : RatSocket) (length : Z) (flags : pystr)
    (offset : Z) :
  0 <= stream_id self <= 65535 -> 0 <= seq_num self <= 65535 ->
  0 <= length <= 65535 -> 0 <= offset <= 255 -> flag_field flags ->
  exists header,
    construct_header self length flags offset = Ok header
    /\ decode_rat_header header
        = Ok (mkHeader (stream_id self) (seq_num self) length flags offset).
Proof.
  intros H1 H2 H3 H5 Hf.
  destruct (construct_header_fields self length flags offset H1 H2 H3 H5 Hf)
    as (f1 & f2 & f3 & ff & f5 & E & [[L1 B1] V1] & [[L2 B2] V2]
        & [[L3 B3] V3] & [[Lf Bf] Ef] & [[L5 B5] V5]).
  eexists. split; [exact E |].
  unfold decode_rat_header.
  rewrite !length_app, L1, L2, L3, Lf, L5. cbn [Nat.add Nat.eqb negb].
  rewrite (slice_prefix 16 f1) by exact L1.
  rewrite !(slice_skip 16 _ _ f1) by (assumption || lia).
  cbn [Nat.sub]. rewrite (slice_prefix 16 f2) by exact L2.
  rewrite !(slice_skip 16 _ _ f2) by (assumption || lia).
  cbn [Nat.sub]. rewrite (slice_prefix 16 f3) by exact L3.
  rewrite !(slice_skip 16 _ _ f3) by (assumption || lia).
  cbn [Nat.sub]. rewrite (slice_prefix 8 ff) by exact Lf.
  rewrite (slice_skip 8 _ _ ff) by (assumption || lia).
  cbn [Nat.sub]. rewrite (slice_all 8 f5) by exact L5.
  rewrite V1, V2, V3, V5.
  rewrite (utf8_decode_ascii ff (bit_field_ascii7 8 ff (conj Lf Bf))).
  cbn [rbind]. now rewrite Ef.
Qed.

Lemma header_roundtrip_witness :
  exists header,
    construct_header example_socket 0 (flag_set [ACK]) 0 = Ok header
    /\ decode_rat_header header = Ok (mkHeader 42 7 0 (s_lit "10000000") 0).
Proof.
  apply (header_roundtrip example_socket 0 (flag_set [ACK]) 0);
    try (cbn; lia).
  exists (b_lit "10000000"). repeat split; reflexivity.
Defined.

Lemma zero_pad_length (n : Z) (w : nat) (f : bytes) :
  zero_pad n (Z.of_nat w) = Ok f -> List.length f = w.
Proof.
  rewrite zero_pad_spec.
  destruct (Z.ltb_spec (Z.of_nat w - Z.of_nat (List.length (bin_tail n))) 0);
    [discriminate |].
  intros [= <-]. rewrite length_app, repeat_length. lia.
Qed.

(** A number at or above [2 ^ w] is refused. *)
Lemma zero_pad_rejects_large (n : Z) (w : nat) :
  2 ^ Z.of_nat w <= n -> zero_pad n (Z.of_nat w) = Raise NumberOutOfRange.
Proof.
  intros Hn. rewrite zero_pad_spec.
  assert (0 < 2 ^ Z.of_nat w) by (apply Z.pow_pos_nonneg; lia).
  destruct n as [| p | p]; try lia. cbn [bin_tail].
  rewrite pos_bits_length.
  destruct (Z.ltb_spec (Z.of_nat w - Z.of_nat (Pos.size_nat p)) 0);
    [reflexivity |].
  assert (Hs : (Pos.size_nat p <= w)%nat) by lia.
  apply size_nat_le_iff in Hs. lia.
Qed.

(** A negative number of small magnitude is not refused: its field holds
    the ["b"] of [bin]'s prefix. *)
Lemma zero_pad_accepts_negative (n : Z) (w : nat) :
  - 2 ^ Z.of_nat (w - 1) < n < 0 ->
  exists f, zero_pad n (Z.of_nat w) = Ok f /\ In "b"%char f.
Proof.
  intros [Hlo Hhi]. rewrite zero_pad_spec.
  destruct n as [| p | p]; try lia. cbn [bin_tail List.length].
  rewrite pos_bits_length.
  assert (Hs : (Pos.size_nat p <= w - 1)%nat) by (apply size_nat_le_iff; lia).
  assert (Hw : (0 < Pos.size_nat p)%nat) by (destruct p; cbn; lia).
  destruct (Z.ltb_spec (Z.of_nat w - Z.of_nat (S (Pos.size_nat p))) 0);
    [lia |].
  eexists. split; [reflexivity |].
  apply in_or_app. right. now left.
Qed.

Lemma construct_header_length (self : RatSocket) (length : Z) (F : list Flag)
    (offset : Z) (header : bytes) :
  construct_header self length (flag_set F) offset = Ok header ->
  List.length header = 64%nat.
Proof.
  unfold construct_header.
  destruct (zero_pad (stream_id self) 16) as [f1 |] eqn:E1; [| discriminate].
  destruct (zero_pad (seq_num self) 16) as [f2 |] eqn:E2; [| discriminate].
  destruct (zero_pad length 16) as [f3 |] eqn:E3; [| discriminate].
  destruct (flag_set_field F) as (ff & Hff & ->).
  rewrite (utf8_encode_ascii ff (bit_field_ascii7 8 ff Hff)).
  destruct (zero_pad offset 8) as [f5 |] eqn:E5; [| discriminate].
  cbn [rbind app]. intros [= <-].
  apply (zero_pad_length _ 16) in E1, E2, E3.
  apply (zero_pad_length _ 8) in E5. destruct Hff as [Lf _].
  rewrite !length_app, E1, E2, E3, E5, Lf. reflexivity.
Qed.

(** [int(.., 2)] fails with [ValueError] only, the UTF-8 decoder with
    [UnicodeDecodeError] only. *)
Lemma int2_raises (b : bytes) (e : exn) : int2 b = Raise e -> e = ValueError.
Proof.
  unfold int2. destruct (split_sign (lstrip b)) as [negative s].
  destruct (skip_prefix s) as [| c t]; [congruence |].
  destruct (Ascii.eqb c "_"); [congruence |].
  destruct (scan_bin (c :: t) false 0 0) as [[[v n] rest] |]; [| congruence].
  destruct n; [congruence |]. destruct (lstrip rest); congruence.
Qed.

Lemma utf8_decode_raises (b : bytes) (e : exn) :
  utf8_decode b = Raise e -> e = UnicodeDecodeError.
Proof.
  remember (List.length b) as n eqn:Hn.
  assert (Hle : (List.length b <= n)%nat) by lia. clear Hn.
  revert b Hle e. induction n as [| n IH]; intros b Hle e.
  - destruct b; [discriminate | cbn in Hle; lia].
  - assert (Hrec : forall t (r : pystr -> pystr),
              (List.length t <= n)%nat ->
              rbind (utf8_decode t) (fun x => Ok (r x)) = Raise e ->
              e = UnicodeDecodeError).
    { intros t r Ht. destruct (utf8_decode t) eqn:E; [discriminate |].
      cbn. intros [= <-]. now apply (IH t Ht). }
    destruct b as [| c0 t0]; [discriminate |]. cbn [utf8_decode].
    cbn [List.length] in Hle.
    destruct (ord c0 <? 128)%N.
    { apply (Hrec t0 (fun r => ord c0 :: r)). lia. }
    destruct t0 as [| c1 t1]; [congruence |]. cbn [List.length] in Hle.
    destruct ((194 <=? ord c0) && (ord c0 <=? 223))%N.
    { destruct (is_cont (ord c1)); [| congruence].
      apply (Hrec t1 (fun r => _ :: r)). lia. }
    destruct t1 as [| c2 t2]; [congruence |]. cbn [List.length] in Hle.
    destruct ((224 <=? ord c0) && (ord c0 <=? 239))%N.
    { match goal with |- (if ?c then _ else _) = _ -> _ => destruct c end;
        [| congruence].
      apply (Hrec t2 (fun r => _ :: r)). lia. }
    destruct t2 as [| c3 t3]; [congruence |]. cbn [List.length] in Hle.
    destruct ((240 <=? ord c0) && (ord c0 <=? 244))%N; [| congruence].
    match goal with |- (if ?c then _ else _) = _ -> _ => destruct c end;
      [| congruence].
    apply (Hrec t3 (fun r => _ :: r)). lia.
Qed.

(** [decode_rat_header] raises its own error exactly on inputs that are
    not 64 octets long. *)
Lemma decode_malformed_iff (b : bytes) :
  decode_rat_header b = Raise HeaderMalformed <-> List.length b <> 64%nat.
Proof.
  unfold decode_rat_header, RAT_HEADER_SIZE.
  destruct (Nat.eqb_spec (List.length b) 64) as [E | E]; cbn [negb].
  - split; [| congruence]. intros H. exfalso.
    repeat match type of H with
           | rbind (int2 ?x) _ = _ =>
               let E' := fresh "E" in
               destruct (int2 x) eqn:E'; cbn [rbind] in H;
               [| injection H as ->; apply int2_raises in E'; discriminate]
           | rbind (utf8_decode ?x) _ = _ =>
               let E' := fresh "E" in
               destruct (utf8_decode x) eqn:E'; cbn [rbind] in H;
               [| injection H as ->; apply utf8_decode_raises in E';
                  discriminate]
           end.
    discriminate.
  - split; [auto | reflexivity].
Qed.

(** C3.  What the code does where the specification says 8 bytes: the
    header [construct_header] builds has 64 octets, one ASCII digit per
    header bit, whenever it builds one; [decode_rat_header] fails with
    [HeaderMalformed] exactly on the inputs that are not 64 octets long, so
    on every 8-octet input; and on an input of the size it accepts it can
    still fail, with [ValueError]. *)
Theorem header_is_64_octets :
  (forall self length F offset,
     match construct_header self length (flag_set F) offset with
     | Ok header => List.length header = 64%nat
     | Raise _ => True
     end)
  /\ construct_header example_socket 0 (flag_set [ACK]) 0
     = Ok (b_lit
         "0000000000101010000000000000011100000000000000001000000000000000")
  /\ (forall b : bytes,
        decode_rat_header b = Raise HeaderMalformed
        <-> List.length b <> 64%nat)
  /\ (forall c0 c1 c2 c3 c4 c5 c6 c7 : ascii,
        decode_rat_header [c0; c1; c2; c3; c4; c5; c6; c7]
        = Raise HeaderMalformed)
  /\ decode_rat_header (repeat "x"%char 64) = Raise ValueError.
Proof.
  split; [| split; [| split; [| split]]]; try reflexivity.
  - intros self length F offset.
    destruct (construct_header self length (flag_set F) offset) eqn:E;
      [| exact I].
    now apply construct_header_length in E.
  - exact decode_malformed_iff.
Qed.

(** C4.  What the code does on a negative field value: [zero_pad] takes
    [bin(-1)], which is ["-0b1"], drops its first two characters and pads
    the remaining ["b1"]; its length fits, so nothing is raised and the
    header is built with that field in it.  Values at or above [2 ^ width]
    are refused ([zero_pad_rejects_large]). *)
Theorem negative_field_is_encoded :
  zero_pad (-1) 16 = Ok (b_lit "00000000000000b1")
  /\ construct_header example_socket (-1) (flag_set []) 0
     = Ok (b_lit
         "0000000000101010000000000000011100000000000000b10000000000000000")
  /\ construct_header example_socket 0 (flag_set []) (-1)
     = Ok (b_lit
         "00000000001010100000000000000111000000000000000000000000000000b1").
Proof. repeat split; reflexivity. Qed.

(** ** The flag codec *)

Lemma Flag_eqb_eq (a b : Flag) : Flag_eqb a b = true <-> a = b.
Proof. split; [destruct a, b; cbv; congruence | intros ->; destruct b; reflexivity]. Qed.

Lemma flag_in_In (f : Flag) (F : list Flag) : flag_in f F = true <-> In f F.
Proof.
  unfold flag_in. rewrite existsb_exists. split.
  - intros (x & Hx & E). apply Flag_eqb_eq in E. now subst.
  - intros H. exists f. split; [exact H | now apply Flag_eqb_eq].
Qed.

Lemma flag_decode_flag_set (F : list Flag) :
  flag_decode (flag_set F) = Ok (canonical F).
Proof.
  rewrite flag_set_unfold. unfold canonical, RAT_FLAG_ORDER.
  cbn [map filter].
  repeat match goal with
         | |- context [flag_in ?f F] => generalize (flag_in f F); intros ?
         end.
  repeat match goal with b : bool |- _ => destruct b end; reflexivity.
Qed.

(** C5.  Flag round trip.  For every collection [F] of flags,
    [flag_decode (flag_set F)] succeeds and returns the flags of [F] in the
    fixed order ACK, NACK, SWIN, RST, ALI, HLO, BYE, EXP: a list with
    exactly the members of [F], and [F] itself for each of the 256 subsets
    written in that order.  [flag_set] is a function on every list of
    flags, and [flag_decode] returns a list on every 8-character field. *)
Theorem flag_roundtrip :
  (forall F, flag_decode (flag_set F) = Ok (canonical F))
  /\ (forall F f, In f (canonical F) <-> In f F)
  /\ (forall b0 b1 b2 b3 b4 b5 b6 b7 : bool,
        let F := pick [b0; b1; b2; b3; b4; b5; b6; b7] RAT_FLAG_ORDER in
        flag_decode (flag_set F) = Ok F)
  /\ (forall c0 c1 c2 c3 c4 c5 c6 c7 : N,
        exists F, flag_decode [c0; c1; c2; c3; c4; c5; c6; c7] = Ok F).
Proof.
  split; [exact flag_decode_flag_set |]. split; [| split].
  - intros F f. unfold canonical. rewrite filter_In, flag_in_In.
    split; [tauto |]. intros H. split; [| exact H].
    destruct f; cbn; tauto.
  - intros b0 b1 b2 b3 b4 b5 b6 b7.
    destruct b0, b1, b2, b3, b4, b5, b6, b7; reflexivity.
  - intros c0 c1 c2 c3 c4 c5 c6 c7.
    unfold flag_decode. cbn [seq fold_left nth_error rbind RAT_FLAG_ORDER].
    destruct (c0 =? ord "1")%N, (c1 =? ord "1")%N, (c2 =? ord "1")%N,
      (c3 =? ord "1")%N, (c4 =? ord "1")%N, (c5 =? ord "1")%N,
      (c6 =? ord "1")%N, (c7 =? ord "1")%N; eexists; reflexivity.
Qed.

(** ** Names the methods read but nothing binds *)

Lemma unbound_names :
  map load_global
    ["flag_header"; "construct_header"; "state_check"; "window_size"]%string
  = [Raise (NameError "flag_header"); Raise (NameError "construct_header");
     Raise (NameError "state_check"); Raise (NameError "window_size")].
Proof. reflexivity. Qed.

(** ** Worlds and traces *)

Lemma count_log (p : io_event -> bool) (e : io_event) (w : World) :
  count p (log e w) = (count p w + (if p e then 1 else 0))%nat.
Proof.
  unfold count, log. cbn [trace]. rewrite filter_app, length_app.
  cbn [filter]. now destruct (p e).
Qed.

Lemma env_log (e : io_event) (w : World) : env (log e w) = env w.
Proof. reflexivity. Qed.

(** ** send and recv *)

(** C1.  What the code does where the specification says [recv] returns
    the bytes sent: [recv] raises [NameError] at its first statement for
    every buffer size, every socket and every world, so it returns no
    bytes to its caller; [send] returns normally only for the empty byte
    string and raises [NameError] for every other one before it transmits
    anything. *)
Theorem recv_never_returns :
  (forall (b : bytes) self w,
     recv (Z.of_nat (List.length b)) self w
     = (Raise (NameError "state_check"), self, w))
  /\ (forall self w, send [] self w = (Ok tt, self, w))
  /\ (forall c b self w,
        send (c :: b) self w = (Raise (NameError "construct_header"), self, w))
  /\ (send [] example_socket (world0 silent_env)
        = (Ok tt, example_socket, world0 silent_env)
      /\ recv 0 example_socket (world0 silent_env)
        = (Raise (NameError "state_check"), example_socket,
           world0 silent_env)).
Proof. repeat split; reflexivity. Qed.

(** ** The state guard *)

Lemma state_check_one (st : State) (self : RatSocket) (w : World) :
  state_check (OneState st) self w
  = if State_eqb (current_state self) st then (Ok tt, self, w)
    else (Raise TypeError, self, w).
Proof. unfold state_check. now destruct (State_eqb _ _). Qed.

(** C6.  What the code does outside an operation's required state.  [send]
    and [close] never look at the state: on every socket, a new one in
    [SOCK_UNOPENED] included, [send] of the empty byte string and [close()]
    return normally.  [connect] does not look at it either and fails the
    same way in every state.  [listen] and [accept] do check, before any
    call to the network, but on a mismatch the check raises [TypeError],
    not the [IOError] of [ERR_STATE]. *)
Theorem state_guard_missing :
  (forall self w, send [] self w = (Ok tt, self, w))
  /\ (forall self w, close self w = (Ok tt, self, w))
  /\ (current_state fresh_socket = SOCK_UNOPENED
      /\ send [] fresh_socket fresh_world = (Ok tt, fresh_socket, fresh_world)
      /\ close fresh_socket fresh_world = (Ok tt, fresh_socket, fresh_world))
  /\ (forall addr port ka self w,
        fst (fst (connect addr port ka self w))
        = Raise (UnboundLocalError "retry_times"))
  /\ (forall addr port n w,
        listen addr port n example_socket w
        = (Raise TypeError, example_socket, w))
  /\ (forall w,
        accept example_socket w = (Ends (Raise TypeError), example_socket, w)).
Proof.
  repeat split; try reflexivity.
  intros addr port ka self w. unfold connect, bind, udp_settimeout, assign,
    debug_print, raise. cbn. now destruct (debug_mode self).
Qed.

(** ** The handshake *)

Lemma connect_outcome (addr : string) (port : Z) (ka : bool)
    (self : RatSocket) (w : World) :
  exists self' w',
    connect addr port ka self w
    = (Raise (UnboundLocalError "retry_times"), self', w')
    /\ current_state self' = current_state self
    /\ stream_id self' = stream_id self
    /\ seq_num self' = seq_num self
    /\ count network_io w' = count network_io w.
Proof.
  unfold connect, bind, udp_settimeout, assign, debug_print, raise.
  cbn beta iota.
  destruct (debug_mode self) eqn:D; cbn [debug_mode set_remote_addr set_udp];
    rewrite ?D; eexists; eexists; (split; [reflexivity |]);
    rewrite ?count_log; cbn; repeat split; lia.
Qed.

(** ** Reasoning about methods *)

Section WpRules.
Context {A B : Type}.
Variable Q : result B -> RatSocket -> World -> Prop.
Variables (self : RatSocket) (w : World).

Lemma wp_bind (m : M A) (k : A -> M B) :
  wp m (fun r s' w' =>
          match r with
          | Ok a => wp (k a) Q s' w'
          | Raise e => Q (Raise e) s' w'
          end) self w ->
  wp (bind m k) Q self w.
Proof.
  unfold wp, bind. destruct (m self w) as [[[a | e] s'] w']; auto.
Qed.

Lemma wp_ret (b : B) : Q (Ok b) self w -> wp (ret b) Q self w.
Proof. auto. Qed.

Lemma wp_raise (e : exn) : Q (Raise e) self w -> wp (raise e) Q self w.
Proof. auto. Qed.

Lemma wp_lift (r : result B) : Q r self w -> wp (lift r) Q self w.
Proof. auto. Qed.
End WpRules.

Section WpPrimitives.
Variables (self : RatSocket) (w : World).

Lemma wp_assign (f : RatSocket -> RatSocket) Q :
  Q (Ok tt) (f self) w -> wp (assign f) Q self w.
Proof. auto. Qed.

Lemma wp_debug_print (msg : string) Q :
  (forall w', no_send w w' -> Q (Ok tt) self w') ->
  wp (debug_print msg) Q self w.
Proof.
  intros H. unfold wp, debug_print.
  destruct (debug_mode self); apply H; unfold no_send; [| reflexivity].
  rewrite count_log. cbn. lia.
Qed.

Lemma wp_state_check_one (st : State) Q :
  (current_state self = st -> Q (Ok tt) self w) ->
  Q (Raise TypeError) self w ->
  wp (state_check (OneState st)) Q self w.
Proof.
  intros Hok Herr. unfold wp. rewrite state_check_one.
  destruct (State_eqb (current_state self) st) eqn:E; [| exact Herr].
  apply Hok. unfold State_eqb in E. apply Z.eqb_eq in E.
  destruct (current_state self), st; cbv in E; congruence.
Qed.

Lemma wp_state_check_cases (st : State) Q :
  (current_state self = st -> Q (Ok tt) self w) ->
  (current_state self <> st -> Q (Raise TypeError) self w) ->
  wp (state_check (OneState st)) Q self w.
Proof.
  intros Hok Herr. unfold wp. rewrite state_check_one.
  destruct (State_eqb (current_state self) st) eqn:E.
  - apply Hok. unfold State_eqb in E. apply Z.eqb_eq in E.
    destruct (current_state self), st; cbv in E; congruence.
  - apply Herr. intros H. rewrite H in E. destruct st; discriminate E.
Qed.

Lemma wp_udp_settimeout (t : option Z) Q :
  (forall w', no_send w w' ->
     Q (Ok tt) (set_udp (mkUdp (fd (udp self)) t (bound_to (udp self))) self)
       w') ->
  wp (udp_settimeout t) Q self w.
Proof.
  intros H. unfold wp, udp_settimeout. apply H. unfold no_send.
  rewrite count_log. cbn. lia.
Qed.

Lemma wp_randrange (lo hi : Z) Q :
  (forall r w', no_send w w' -> Q (Ok r) self w') ->
  wp (randrange lo hi) Q self w.
Proof.
  intros H. unfold wp, randrange. apply H. unfold no_send.
  rewrite count_log. cbn. lia.
Qed.

Lemma wp_new_RatSocket (d : bool) Q :
  (forall n w', no_send w w' ->
     Q (Ok (mkRatSocket SOCK_UNOPENED (mkUdp n None None) 0 0 0
              ("localhost"%string, 0) [] [] true 0 d)) self w') ->
  wp (new_RatSocket d) Q self w.
Proof.
  intros H. unfold wp, new_RatSocket, RatSocket_init. apply H.
  unfold no_send. rewrite !count_log. cbn. lia.
Qed.
End WpPrimitives.

Lemma no_send_trans (w1 w2 w3 : World) :
  no_send w1 w2 -> no_send w2 w3 -> no_send w1 w3.
Proof. unfold no_send. congruence. Qed.

(** The same rules for the methods that may wait. *)
Section WpBlocking.
Context {A B : Type}.
Variable Q : outcome B -> RatSocket -> World -> Prop.
Variables (self : RatSocket) (w : World).

Lemma wp_blocking_bind (m : Blocking A) (k : A -> Blocking B) :
  wp_blocking m (fun r s' w' =>
                   match r with
                   | Ends (Ok a) => wp_blocking (k a) Q s' w'
                   | Ends (Raise e) => Q (Ends (Raise e)) s' w'
                   | Blocks => Q Blocks s' w'
                   end) self w ->
  wp_blocking (bind_blocking m k) Q self w.
Proof.
  unfold wp_blocking, bind_blocking.
  destruct (m self w) as [[[[a | e] |] s'] w']; auto.
Qed.

Lemma wp_nonblocking (m : M B) :
  wp m (fun r s' w' => Q (Ends r) s' w') self w ->
  wp_blocking (nonblocking m) Q self w.
Proof.
  unfold wp, wp_blocking, nonblocking.
  destruct (m self w) as [[r s'] w']; auto.
Qed.
End WpBlocking.

Lemma wp_udp_recvfrom (n : nat) Q (self : RatSocket) (w : World) :
  (forall data from w',
     no_send w w' ->
     env_recv (env w) (count is_recvfrom w) = Datagram data from ->
     Q (Ends (Ok (firstn n data, from))) self w') ->
  (forall w',
     no_send w w' -> ~ recv_blocks self w ->
     Q (Ends (Raise SocketError)) self w') ->
  (forall w', no_send w w' -> recv_blocks self w -> Q Blocks self w') ->
  wp_blocking (udp_recvfrom n) Q self w.
Proof.
  intros Hok Herr Hblock. unfold wp_blocking, udp_recvfrom.
  assert (no_send w (log (EvRecvFrom (fd (udp self)) n) w))
    by (unfold no_send; rewrite count_log; cbn; lia).
  unfold recv_blocks in *.
  destruct (env_recv _ _) eqn:E; auto.
  - apply Herr; [assumption | intros [_ D]; discriminate D].
  - destruct (timeout (udp self)) eqn:T; auto.
    apply Herr; [assumption | intros [D _]; discriminate D].
Qed.

(** One statement of the body of a method that may wait: a statement that
    cannot wait, or the receive. *)
Ltac wpb_step rule := apply wp_blocking_bind, wp_nonblocking, rule.
Ltac wpb_recv := apply wp_blocking_bind, wp_udp_recvfrom.

Lemma accept_outcome (self : RatSocket) (w : World) :
  wp_blocking accept
     (fun r self' w' => accept_ends self r self' /\ no_send w w')
     self w.
Proof.
  assert (Hraise : forall e, accept_ends self (Ends (Raise e)) self)
    by (intros e; right; right; exists e; split; [reflexivity | now left]).
  assert (Hfalse : accept_ends self (Ends (Ok AcceptFalse)) self)
    by (left; now split).
  assert (H0 : no_send w w) by reflexivity.
  unfold accept.
  wpb_step wp_state_check_one; [intros _ | auto].
  wpb_step wp_debug_print; intros w1 H1.
  wpb_recv.
  2: intros; eauto using no_send_trans.
  2: { intros w' H2 [T _]. split; [| eauto using no_send_trans].
       right; left. now repeat split. }
  intros data from w' H' _.
  assert (H2 : no_send w w') by eauto using no_send_trans.
  wpb_step @wp_lift.
  destruct (decode_rat_header _) as [hlo |]; [| auto].
  wpb_step @wp_lift.
  destruct (flag_decode _) as [flags |]; [| auto].
  destruct (flag_in HLO flags); [| apply wp_nonblocking, wp_ret; auto].
  wpb_step wp_udp_settimeout; intros w3 H3.
  wpb_step wp_debug_print; intros w4 H4.
  wpb_step wp_new_RatSocket; intros n w5 H5.
  wpb_step wp_randrange; intros r w6 H6.
  wpb_step wp_assign.
  cbn [RAT_RETRY_TIMES]. apply wp_nonblocking, wp_raise. split.
  - right; right. eexists. split; [reflexivity |]. right.
    exists n, from, r. reflexivity.
  - eauto 8 using no_send_trans.
Qed.

(** C7.  What the code does when every handshake reply is lost.  On a
    listener that receives the HLO and nothing after it, [accept] prepares
    the child and then raises [NameError] from the condition of its retry
    loop: it has sent nothing, where the specification says five
    attempts, and it raises, where the specification says it returns a
    failure value; the listener is still in [SOCK_SERVOPEN].  In every
    world [accept] makes not one [sendto], however it ends, and [connect]
    raises [UnboundLocalError] without one call to the network. *)
Theorem handshake_makes_no_attempt :
  (fst (fst listening) = Ok tt /\ current_state listener = SOCK_SERVOPEN)
  /\ (let '(r, listener', w') := accept listener listener_world in
      r = Ends (Raise (NameError "flag_header"))
      /\ count is_sendto w' = 0%nat
      /\ current_state listener' = SOCK_SERVOPEN
      /\ map current_state (active_streams listener') = [SOCK_HLORECV])
  /\ (forall self w,
        exists r self' w',
          accept self w = (r, self', w')
          /\ count is_sendto w' = count is_sendto w)
  /\ (forall addr port ka self w,
        exists self' w',
          connect addr port ka self w
          = (Raise (UnboundLocalError "retry_times"), self', w')
          /\ count network_io w' = count network_io w).
Proof.
  split; [split; reflexivity |]. split; [| split].
  - vm_compute. repeat split; reflexivity.
  - intros self w. pose proof (accept_outcome self w) as H.
    unfold wp_blocking in H.
    destruct (accept self w) as [[r self'] w'].
    exists r, self', w'. split; [reflexivity | apply H].
  - intros addr port ka self w.
    destruct (connect_outcome addr port ka self w)
      as (self' & w' & E & _ & _ & _ & C).
    exists self', w'. now split.
Qed.

Lemma connect_redirects (addr : string) (port : Z) (ka : bool)
    (self : RatSocket) (w : World) :
  exists w',
    connect addr port ka self w
    = (Raise (UnboundLocalError "retry_times"), redirected (addr, port) self,
       w')
    /\ count network_io w' = count network_io w.
Proof.
  unfold connect, bind, udp_settimeout, assign, debug_print, raise, redirected.
  cbn beta iota.
  destruct (debug_mode self) eqn:D; cbn [debug_mode set_remote_addr set_udp];
    rewrite ?D; eexists; (split; [reflexivity |]);
    rewrite ?count_log; cbn; lia.
Qed.

Lemma listener_after_state (self self' : RatSocket) :
  listener_after self self' -> current_state self' = current_state self.
Proof. intros [-> | (d & from & r & ->)]; reflexivity. Qed.

(** C8.  What the code does where the specification says that a failed
    exchange is reported and leaves the connection state unchanged.  On
    the listener that receives the HLO and no reply, [accept] raises
    [NameError] where a failure is to be returned, and the listener is not
    what it was: its UDP socket has the reply timeout, and
    [active_streams] holds a child in [SOCK_HLORECV] that nothing takes
    out again.  On every socket and in every world [connect] raises
    [UnboundLocalError] and has by then overwritten [remote_addr] and the
    timeout, which changes a new socket; [close] returns normally, a
    success, with the socket and the world untouched; [send] returns
    normally or raises [NameError], also with both untouched.  The part
    of the specification that holds: not one of the four assigns
    [current_state], and [accept] returns no client. *)
Theorem failed_exchange_changes_socket :
  (exists w',
     accept listener listener_world
     = (Ends (Raise (NameError "flag_header")),
        with_child (child_of 1 ("10.0.0.2"%string, 4000) 1235) listener, w')
     /\ count is_sendto w' = 0%nat)
  /\ (timeout (udp listener) = None
      /\ active_streams listener = []
      /\ with_child (child_of 1 ("10.0.0.2"%string, 4000) 1235) listener
         <> listener)
  /\ (forall addr port ka self w,
        exists w',
          connect addr port ka self w
          = (Raise (UnboundLocalError "retry_times"),
             redirected (addr, port) self, w')
          /\ count network_io w' = count network_io w)
  /\ redirected ("10.0.0.1"%string, 5001) fresh_socket <> fresh_socket
  /\ (forall self w, close self w = (Ok tt, self, w))
  /\ (forall b self w,
        send b self w
        = (match b with
           | [] => Ok tt
           | _ :: _ => Raise (NameError "construct_header")
           end, self, w))
  /\ (forall self w,
        exists r self' w',
          accept self w = (r, self', w')
          /\ accept_ends self r self'
          /\ current_state self' = current_state self)
  /\ (forall a self, current_state (redirected a self) = current_state self).
Proof.
  split; [| split; [| split; [| split; [| split; [| split; [| split]]]]]].
  - eexists. split; [vm_compute; reflexivity | reflexivity].
  - repeat split; try reflexivity.
    intros H. apply (f_equal active_streams) in H. discriminate H.
  - intros addr port ka self w. apply connect_redirects.
  - intros H. apply (f_equal remote_addr) in H. discriminate H.
  - reflexivity.
  - intros [| c b] self w; reflexivity.
  - intros self w. pose proof (accept_outcome self w) as H.
    unfold wp_blocking in H.
    destruct (accept self w) as [[r self'] w']. destruct H as [H _].
    exists r, self', w'. split; [reflexivity |]. split; [exact H |].
    destruct H as [[_ ->] | [(_ & -> & _) | (e & _ & H)]];
      [reflexivity | reflexivity | now apply listener_after_state].
  - reflexivity.
Qed.

(** ** Teardown *)

(** C9.  What the code does where the specification says BYE handshake:
    [close] is the empty method.  On every socket it returns normally with
    the socket and the world untouched, so an established connection stays
    in [SOCK_ESTABLISHED] and no segment is sent; and a socket whose state
    is [SOCK_CLOSED] still accepts [send] of the empty byte string and
    [close()], which return normally.  The constant is as specified:
    [RAT_BYE_TIMEOUT] is one quarter of [RAT_REPLY_TIMEOUT], one second. *)
Theorem close_is_empty :
  (forall self w, close self w = (Ok tt, self, w))
  /\ (current_state example_socket = SOCK_ESTABLISHED
      /\ close example_socket (world0 silent_env)
         = (Ok tt, example_socket, world0 silent_env)
      /\ trace (snd (close example_socket (world0 silent_env))) = [])
  /\ (current_state closed_socket = SOCK_CLOSED
      /\ (forall w, send [] closed_socket w = (Ok tt, closed_socket, w))
      /\ (forall w, close closed_socket w = (Ok tt, closed_socket, w)))
  /\ (RAT_BYE_TIMEOUT == 1
      /\ RAT_BYE_TIMEOUT * 4 == inject_Z RAT_REPLY_TIMEOUT)%Q.
Proof. repeat split; reflexivity. Qed.

(** ** Acknowledgements *)

(** The retry loop of [ack] always ends normally, leaves the socket as it
    is, and sends at most [retry_times] times: exactly that often when
    every attempt fails. *)
Lemma ack_loop_spec (hdr : bytes) (retry_times : nat) (self : RatSocket)
    (w : World) :
  exists w',
    ack_loop hdr retry_times self w = (Ok tt, self, w')
    /\ env w' = env w
    /\ (count is_sendto w <= count is_sendto w'
        <= count is_sendto w + retry_times)%nat
    /\ ((forall k, env_send (env w) k = false) ->
        count is_sendto w' = (count is_sendto w + retry_times)%nat).
Proof.
  revert w. induction retry_times as [| n IH]; intros w.
  - exists w. cbn. repeat split; lia.
  - cbn [ack_loop]. unfold try_except, bind, get, udp_sendto.
    destruct (env_send (env w) (count is_sendto w)) eqn:E.
    + eexists. split; [reflexivity |]. rewrite count_log. cbn.
      repeat split; try lia. intros H. rewrite H in E. discriminate.
    + destruct (IH (log (EvSendTo (fd (udp self)) hdr (remote_addr self)) w))
        as (w' & E' & He & Hc & Hall).
      exists w'. split; [exact E' |]. rewrite count_log in Hc, Hall.
      cbn in Hc, Hall, He.
      repeat split; try lia; try congruence.
      intros H. specialize (Hall H). lia.
Qed.

(** [ack] on a socket whose two numbers fit their fields. *)
Lemma ack_in_range (self : RatSocket) (w : World) :
  0 <= stream_id self <= 65535 -> 0 <= seq_num self <= 65535 ->
  exists w',
    ack self w = (Ok tt, set_seq_num (seq_num self + 1) self, w')
    /\ (count is_sendto w' <= count is_sendto w + RAT_RETRY_TIMES)%nat
    /\ ((forall k, env_send (env w) k = false) ->
        count is_sendto w' = (count is_sendto w + RAT_RETRY_TIMES)%nat).
Proof.
  intros H1 H2.
  destruct (construct_header_fields self 0 (flag_set [ACK]) 0)
    as (f1 & f2 & f3 & ff & f5 & E & _);
    [assumption | assumption | lia | lia | apply flag_set_field |].
  destruct (ack_loop_spec (f1 ++ f2 ++ f3 ++ ff ++ f5) RAT_RETRY_TIMES self w)
    as (w' & El & _ & Hc & Hall).
  exists w'. split; [| split; [lia | exact Hall]].
  unfold ack, bind, get, lift, assign. rewrite E, El. reflexivity.
Qed.

Lemma set_seq_num_same (self : RatSocket) :
  set_seq_num (seq_num self) self = self.
Proof. now destruct self. Qed.

(** Nothing wraps [seq_num]: [n] acknowledgements add [n] to it, up to
    the first value that no longer fits 16 bits. *)
Lemma ack_times_spec (n : nat) (self : RatSocket) (w : World) :
  0 <= stream_id self <= 65535 -> 0 <= seq_num self ->
  seq_num self + Z.of_nat n <= 65536 ->
  exists w',
    ack_times n self w
    = (Ok tt, set_seq_num (seq_num self + Z.of_nat n) self, w').
Proof.
  revert self w. induction n as [| n IH]; intros self w H1 H2 H3.
  - exists w. cbn [ack_times Z.of_nat]. rewrite Z.add_0_r, set_seq_num_same.
    reflexivity.
  - destruct (ack_in_range self w) as (w1 & E1 & _); [assumption | lia |].
    destruct (IH (set_seq_num (seq_num self + 1) self) w1)
      as (w' & E'); cbn; try lia.
    exists w'. cbn [ack_times]. unfold bind. rewrite E1, E'. cbn.
    do 2 f_equal. unfold set_seq_num. cbn. f_equal. lia.
Qed.

(** A new socket reaches sequence number 65536 by acknowledging 65536
    times, and the next [ack] raises. *)
Lemma seq_num_leaves_range :
  exists w',
    ack_times (Z.to_nat 65536) fresh_socket fresh_world
    = (Ok tt, set_seq_num 65536 fresh_socket, w')
    /\ ack (set_seq_num 65536 fresh_socket) w'
       = (Raise NumberOutOfRange, set_seq_num 65536 fresh_socket, w').
Proof.
  destruct (ack_times_spec (Z.to_nat 65536) fresh_socket fresh_world)
    as (w' & E); [cbn; lia | cbn; lia | rewrite Z2Nat.id; cbn; lia |].
  exists w'. split; [| reflexivity].
  rewrite E, Z2Nat.id by lia. reflexivity.
Qed.

(** A socket whose sequence number has left the 16-bit range: [ack] builds
    its header first, and [zero_pad] refuses the number. *)
Lemma ack_raises_past_65535 :
  ack (set_seq_num 65536 example_socket) (world0 silent_env)
  = (Raise NumberOutOfRange, set_seq_num 65536 example_socket,
     world0 silent_env)
  /\ ~ ack_never_raises.
Proof.
  split; [reflexivity |].
  intros H.
  destruct (H (set_seq_num 65536 example_socket) (world0 silent_env))
    as (self' & w' & E & _).
  discriminate E.
Qed.

(** C10, amended.  For every connection whose [stream_id] and [seq_num]
    lie in [0, 65535], in any state and in any world, [ack] returns
    normally, also when each of its [RAT_RETRY_TIMES] transmission attempts
    fails (then it has made exactly that many); it adds one to [seq_num] and
    leaves [current_state], [stream_id], [window_size] and [remote_addr]
    as they were. *)
Theorem ack_advances_seq_num (self : RatSocket) (w : World) :
  0 <= stream_id self <= 65535 -> 0 <= seq_num self <= 65535 ->
  exists self' w',
    ack self w = (Ok tt, self', w')
    /\ seq_num self' = seq_num self + 1
    /\ current_state self' = current_state self
    /\ stream_id self' = stream_id self
    /\ window_size self' = window_size self
    /\ remote_addr self' = remote_addr self
    /\ (count is_sendto w' <= count is_sendto w + RAT_RETRY_TIMES)%nat
    /\ ((forall k, env_send (env w) k = false) ->
        count is_sendto w' = (count is_sendto w + RAT_RETRY_TIMES)%nat).
Proof.
  intros H1 H2.
  destruct (ack_in_range self w H1 H2) as (w' & E & Hc & Hall).
  exists (set_seq_num (seq_num self + 1) self), w'.
  split; [exact E |]. cbn. repeat split; try lia. exact Hall.
Qed.

Lemma ack_advances_seq_num_witness :
  exists self' w',
    ack fresh_socket fresh_world = (Ok tt, self', w')
    /\ seq_num self' = seq_num fresh_socket + 1
    /\ current_state self' = current_state fresh_socket
    /\ stream_id self' = stream_id fresh_socket
    /\ window_size self' = window_size fresh_socket
    /\ remote_addr self' = remote_addr fresh_socket
    /\ (count is_sendto w' <= count is_sendto fresh_world + RAT_RETRY_TIMES)%nat
    /\ ((forall k, env_send (env fresh_world) k = false) ->
        count is_sendto w'
        = (count is_sendto fresh_world + RAT_RETRY_TIMES)%nat).
Proof.
  apply (ack_advances_seq_num fresh_socket fresh_world); cbn; lia.
Defined.

(** * Further properties *)

(** ** Fields of any width *)

Lemma bin_tail_too_long (n : Z) (w : nat) :
  (0 < w)%nat ->
  (w < List.length (bin_tail n))%nat <-> ~ fits n w.
Proof.
  intros Hw. unfold fits.
  assert (Hp : 0 < 2 ^ Z.of_nat w) by (apply Z.pow_pos_nonneg; lia).
  assert (Hq : 0 < 2 ^ Z.of_nat (w - 1)) by (apply Z.pow_pos_nonneg; lia).
  destruct n as [| p | p]; cbn [bin_tail List.length].
  - split; lia.
  - rewrite pos_bits_length. pose proof (size_nat_le_iff p w). lia.
  - rewrite pos_bits_length. pose proof (size_nat_le_iff p (w - 1)). lia.
Qed.

(** X1.  [zero_pad] refuses exactly the integers that do not fit: for a
    width of at least one character it raises [NumberOutOfRange] if and
    only if the number is at or above [2 ^ width] or at or below
    [- 2 ^ (width - 1)]; it raises nothing else, and what it returns has
    exactly [width] characters. *)
Theorem zero_pad_raises_iff (n : Z) (w : nat) :
  (0 < w)%nat ->
  (zero_pad n (Z.of_nat w) = Raise NumberOutOfRange
   <-> 2 ^ Z.of_nat w <= n \/ n <= - 2 ^ Z.of_nat (w - 1))
  /\ (forall e, zero_pad n (Z.of_nat w) = Raise e -> e = NumberOutOfRange)
  /\ (forall f, zero_pad n (Z.of_nat w) = Ok f -> List.length f = w).
Proof.
  intros Hw. pose proof (bin_tail_too_long n w Hw) as Hlong.
  unfold fits in Hlong. rewrite zero_pad_spec.
  destruct (Z.ltb_spec (Z.of_nat w - Z.of_nat (List.length (bin_tail n))) 0)
    as [Hlt | Hge].
  - split; [| split].
    + split; [intros _; lia | reflexivity].
    + now intros e [= <-].
    + discriminate.
  - split; [| split].
    + split; [discriminate | lia].
    + discriminate.
    + intros f [= <-]. rewrite length_app, repeat_length. lia.
Qed.

Lemma zero_pad_raises_iff_witness :
  (zero_pad (-32768) (Z.of_nat 16) = Raise NumberOutOfRange
   <-> 2 ^ Z.of_nat 16 <= -32768 \/ -32768 <= - 2 ^ Z.of_nat (16 - 1))
  /\ (forall e, zero_pad (-32768) (Z.of_nat 16) = Raise e
                -> e = NumberOutOfRange)
  /\ (forall f, zero_pad (-32768) (Z.of_nat 16) = Ok f
                -> List.length f = 16%nat).
Proof. apply (zero_pad_raises_iff (-32768) 16). lia. Defined.

(** X2.  A field of any width round-trips: for [0 <= n < 2 ^ w] with [w]
    at least one, [zero_pad] returns [w] binary digits and [int(.., 2)]
    reads [n] back from them. *)
Theorem zero_pad_int2 (n : Z) (w : nat) :
  (0 < w)%nat -> 0 <= n < 2 ^ Z.of_nat w ->
  exists f,
    zero_pad n (Z.of_nat w) = Ok f
    /\ List.length f = w
    /\ forallb is_bit f = true
    /\ int2 f = Ok n.
Proof.
  intros Hw Hn.
  destruct (zero_pad_in_range n w Hw Hn) as (f & E & [L B] & V).
  exists f. repeat split; try assumption.
  rewrite <- V. apply (bit_field_int2 w); [exact Hw | now split].
Qed.

Lemma zero_pad_int2_witness :
  exists f,
    zero_pad 5 (Z.of_nat 3) = Ok f
    /\ List.length f = 3%nat
    /\ forallb is_bit f = true
    /\ int2 f = Ok 5.
Proof. apply (zero_pad_int2 5 3); cbn; lia. Defined.

(** ** Decoding, then encoding *)

Lemma bits_value_nonneg (l : list ascii) (acc : Z) :
  0 <= acc -> 0 <= bits_value l acc.
Proof.
  revert acc. induction l as [| c t IH]; intros acc H; cbn [bits_value];
    [exact H |].
  apply IH. destruct (Ascii.eqb c "1"); lia.
Qed.

Lemma repeat_snoc {A} (a : A) (k : nat) : repeat a k ++ [a] = repeat a (S k).
Proof. induction k; cbn; [reflexivity | now rewrite IHk]. Qed.

(** Binary digits are zeros followed by the digits [bin] prints. *)
Lemma bits_canonical (f : list ascii) :
  forallb is_bit f = true -> f <> [] ->
  exists k, f = repeat "0"%char k ++ bin_tail (bits_value f 0).
Proof.
  induction f as [| c g IH] using rev_ind; [congruence |].
  intros Hb _. rewrite forallb_app in Hb. apply andb_true_iff in Hb.
  destruct Hb as [Hg Hc]. cbn [forallb] in Hc. rewrite andb_true_r in Hc.
  rewrite bits_value_app.
  destruct g as [| c' g'].
  - exists 0%nat. destruct (is_bit_cases c Hc); subst c; reflexivity.
  - destruct (IH Hg ltac:(discriminate)) as (k & Ek).
    pose proof (bits_value_nonneg (c' :: g') 0 ltac:(lia)) as Hv.
    destruct (bits_value (c' :: g') 0) as [| p | p] eqn:Ev; [| | lia].
    + cbn [bin_tail] in Ek. rewrite repeat_snoc in Ek. rewrite Ek.
      exists (S k). destruct (is_bit_cases c Hc); subst c; reflexivity.
    + cbn [bin_tail] in Ek. rewrite Ek. exists k. rewrite <- app_assoc.
      destruct (is_bit_cases c Hc); subst c; reflexivity.
Qed.

Lemma zero_pad_bits (w : nat) (f : bytes) :
  (0 < w)%nat -> bit_field w f -> zero_pad (bits_value f 0) (Z.of_nat w) = Ok f.
Proof.
  intros Hw [L B].
  destruct (bits_canonical f B) as (k & Ek); [intros ->; cbn in L; lia |].
  rewrite zero_pad_spec.
  assert (Hl : List.length f
               = (k + List.length (bin_tail (bits_value f 0)))%nat).
  { rewrite Ek at 1. now rewrite length_app, repeat_length. }
  destruct (Z.ltb_spec
              (Z.of_nat w - Z.of_nat (List.length (bin_tail (bits_value f 0))))
              0); [lia |].
  replace (Z.to_nat _) with k by lia. now rewrite <- Ek.
Qed.

Lemma bits_value_bound (f : list ascii) :
  forallb is_bit f = true -> f <> [] ->
  0 <= bits_value f 0 < 2 ^ Z.of_nat (List.length f).
Proof.
  intros B Hne. split; [apply bits_value_nonneg; lia |].
  destruct (bits_canonical f B Hne) as (k & Ek).
  assert (Hl : List.length f
               = (k + List.length (bin_tail (bits_value f 0)))%nat).
  { rewrite Ek at 1. now rewrite length_app, repeat_length. }
  pose proof (bits_value_nonneg f 0 ltac:(lia)) as Hv.
  assert (Hp : 0 < 2 ^ Z.of_nat (List.length f))
    by (apply Z.pow_pos_nonneg; lia).
  destruct (bits_value f 0) as [| p | p]; [lia | | lia].
  apply size_nat_le_iff. cbn [bin_tail] in Hl. rewrite pos_bits_length in Hl.
  lia.
Qed.

Lemma slice_glue {A} (i j : nat) (l : list A) :
  (i <= j)%nat -> slice i j l ++ skipn j l = skipn i l.
Proof.
  intros H. unfold slice.
  replace j with ((j - i) + i)%nat at 2 by lia.
  rewrite <- skipn_skipn. apply firstn_skipn.
Qed.

Lemma slice_length {A} (i j : nat) (l : list A) :
  (j <= List.length l)%nat -> List.length (slice i j l) = (j - i)%nat.
Proof.
  intros H. unfold slice. rewrite length_firstn, length_skipn. lia.
Qed.

(** A 64-octet stream is its five slices. *)
Lemma header_slices (b : bytes) :
  List.length b = 64%nat ->
  b = slice 0 16 b ++ slice 16 32 b ++ slice 32 48 b ++ slice 48 56 b
      ++ slice 56 64 b.
Proof.
  intros L.
  assert (E : slice 56 64 b = skipn 56 b).
  { rewrite <- (slice_glue 56 64 b) by lia.
    rewrite (skipn_all2 b) by lia. now rewrite app_nil_r. }
  rewrite E, (slice_glue 48 56), (slice_glue 32 48), (slice_glue 16 32),
    (slice_glue 0 16) by lia.
  reflexivity.
Qed.

Lemma utf8_ascii_text (s : pystr) :
  ascii_text s -> utf8_encode s = Ok (map chr8 s).
Proof.
  induction 1 as [| c t Hc _ IH]; [reflexivity |].
  cbn [utf8_encode map]. rewrite IH. unfold utf8_encode_cp.
  apply N.ltb_lt in Hc. now rewrite Hc.
Qed.

(** X3.  Decoding, then encoding.  Every stream of 64 binary digits
    decodes; the four numbers it decodes to fit their fields, the flags
    are an 8-flag field value, and [construct_header] on a socket with
    that [stream_id] and [seq_num] builds the very same 64 octets. *)
Theorem header_reencode (b : bytes) (self : RatSocket) :
  List.length b = 64%nat -> forallb is_bit b = true ->
  exists h,
    decode_rat_header b = Ok h
    /\ 0 <= h_stream_id h <= 65535
    /\ 0 <= h_seq_num h <= 65535
    /\ 0 <= h_length h <= 65535
    /\ 0 <= h_offset h <= 255
    /\ flag_field (h_flags h)
    /\ construct_header (with_ids (h_stream_id h) (h_seq_num h) self)
         (h_length h) (h_flags h) (h_offset h) = Ok b.
Proof.
  intros L B. pose proof (header_slices b L) as Hb.
  set (f1 := slice 0 16 b) in *. set (f2 := slice 16 32 b) in *.
  set (f3 := slice 32 48 b) in *. set (ff := slice 48 56 b) in *.
  set (f5 := slice 56 64 b) in *.
  assert (F1 : bit_field 16 f1 /\ bit_field 16 f2 /\ bit_field 16 f3
               /\ bit_field 8 ff /\ bit_field 8 f5).
  { rewrite Hb in B. rewrite !forallb_app in B.
    repeat (apply andb_true_iff in B; destruct B as [? B]).
    unfold bit_field, f1, f2, f3, ff, f5.
    rewrite !slice_length by lia. cbn [Nat.sub]. tauto. }
  destruct F1 as (B1 & B2 & B3 & Bf & B5).
  assert (R : forall w f, (0 < w)%nat -> (w <= 16)%nat -> bit_field w f ->
                0 <= bits_value f 0 < 2 ^ Z.of_nat w).
  { intros w f Hw _ [Lf Bb]. rewrite <- Lf. apply bits_value_bound; auto.
    intros ->. cbn in Lf. lia. }
  pose proof (R 16%nat f1 ltac:(lia) ltac:(lia) B1) as R1.
  pose proof (R 16%nat f2 ltac:(lia) ltac:(lia) B2) as R2.
  pose proof (R 16%nat f3 ltac:(lia) ltac:(lia) B3) as R3.
  pose proof (R 8%nat f5 ltac:(lia) ltac:(lia) B5) as R5.
  change (2 ^ Z.of_nat 16) with 65536 in *.
  change (2 ^ Z.of_nat 8) with 256 in *.
  exists (mkHeader (bits_value f1 0) (bits_value f2 0) (bits_value f3 0)
            (map ord ff) (bits_value f5 0)).
  split.
  - unfold decode_rat_header. rewrite L. cbn [Nat.eqb negb RAT_HEADER_SIZE].
    fold f1 f2 f3 ff f5.
    rewrite (bit_field_int2 16 f1), (bit_field_int2 16 f2),
      (bit_field_int2 16 f3), (bit_field_int2 8 f5) by (lia || assumption).
    rewrite (utf8_decode_ascii ff (bit_field_ascii7 8 ff Bf)). reflexivity.
  - cbn [h_stream_id h_seq_num h_length h_flags h_offset].
    repeat (split; [lia |]). split; [now exists ff |].
    unfold construct_header, with_ids. cbn [stream_id seq_num set_seq_num
      set_stream_id].
    pose proof (zero_pad_bits 16 f1 ltac:(lia) B1) as Z1.
    pose proof (zero_pad_bits 16 f2 ltac:(lia) B2) as Z2.
    pose proof (zero_pad_bits 16 f3 ltac:(lia) B3) as Z3.
    pose proof (zero_pad_bits 8 f5 ltac:(lia) B5) as Z5.
    change (Z.of_nat 16) with 16 in Z1, Z2, Z3.
    change (Z.of_nat 8) with 8 in Z5.
    rewrite Z1, Z2, Z3, Z5.
    rewrite (utf8_encode_ascii ff (bit_field_ascii7 8 ff Bf)).
    cbn [rbind app]. rewrite <- !app_assoc. now rewrite <- Hb.
Qed.

Lemma header_reencode_witness :
  exists h,
    decode_rat_header hlo_segment = Ok h
    /\ 0 <= h_stream_id h <= 65535
    /\ 0 <= h_seq_num h <= 65535
    /\ 0 <= h_length h <= 65535
    /\ 0 <= h_offset h <= 255
    /\ flag_field (h_flags h)
    /\ construct_header (with_ids (h_stream_id h) (h_seq_num h) example_socket)
         (h_length h) (h_flags h) (h_offset h) = Ok hlo_segment.
Proof. apply (header_reencode hlo_segment example_socket); reflexivity. Defined.

(** ** Which headers are built *)




Lemma zero_pad_fits (n : Z) (w : nat) :
  (0 < w)%nat ->
  (fits n w -> exists f, zero_pad n (Z.of_nat w) = Ok f /\ List.length f = w)
  /\ (~ fits n w -> zero_pad n (Z.of_nat w) = Raise NumberOutOfRange).
Proof.
  intros Hw. pose proof (bin_tail_too_long n w Hw) as Hlong.
  rewrite zero_pad_spec.
  destruct (Z.ltb_spec (Z.of_nat w - Z.of_nat (List.length (bin_tail n))) 0)
    as [Hlt | Hge].
  - split; [| reflexivity]. intros Hf. exfalso. apply Hlong; [lia | exact Hf].
  - split.
    + intros _. eexists. split; [reflexivity |].
      rewrite length_app, repeat_length. lia.
    + intros Hf. apply Hlong in Hf. lia.
Qed.

Lemma fits_dec (n : Z) (w : nat) : fits n w \/ ~ fits n w.
Proof. unfold fits. lia. Qed.

(** Which calls of [construct_header] succeed. *)
Lemma construct_header_cases (self : RatSocket) (length : Z)
    (flags : pystr) (offset : Z) :
  flag_field flags ->
  (all_fit self length offset
   /\ exists header,
        construct_header self length flags offset = Ok header
        /\ List.length header = 64%nat)
  \/ (~ all_fit self length offset
      /\ construct_header self length flags offset = Raise NumberOutOfRange).
Proof.
  intros (ff & Hff & ->). unfold all_fit, construct_header.
  rewrite (utf8_encode_ascii ff (bit_field_ascii7 8 ff Hff)).
  destruct Hff as [Lf _].
  destruct (zero_pad_fits (stream_id self) 16 ltac:(lia)) as [P1 N1].
  destruct (zero_pad_fits (seq_num self) 16 ltac:(lia)) as [P2 N2].
  destruct (zero_pad_fits length 16 ltac:(lia)) as [P3 N3].
  destruct (zero_pad_fits offset 8 ltac:(lia)) as [P5 N5].
  change (Z.of_nat 16) with 16 in *. change (Z.of_nat 8) with 8 in *.
  destruct (fits_dec (stream_id self) 16) as [F1 | F1];
    [destruct (P1 F1) as (f1 & -> & L1) | rewrite (N1 F1)];
    [| right; split; [tauto | reflexivity]].
  destruct (fits_dec (seq_num self) 16) as [F2 | F2];
    [destruct (P2 F2) as (f2 & -> & L2) | rewrite (N2 F2)];
    [| right; split; [tauto | reflexivity]].
  destruct (fits_dec length 16) as [F3 | F3];
    [destruct (P3 F3) as (f3 & -> & L3) | rewrite (N3 F3)];
    [| right; split; [tauto | reflexivity]].
  destruct (fits_dec offset 8) as [F5 | F5];
    [destruct (P5 F5) as (f5 & -> & L5) | rewrite (N5 F5)];
    [| right; split; [tauto | reflexivity]].
  left. split; [tauto |]. eexists. split; [reflexivity |].
  cbn [rbind app]. rewrite !length_app, L1, L2, L3, Lf, L5. reflexivity.
Qed.

(** X5.  [construct_header] with an 8-flag field value (eight characters,
    each ["0"] or ["1"]) succeeds exactly when each of [stream_id],
    [seq_num], length and offset is a number [zero_pad] accepts for its
    field (above [- 2 ^ (w - 1)] and below [2 ^ w], for [w] 16, 16, 16 and
    8); then the header has 64 octets, and otherwise the call raises
    [NumberOutOfRange]. *)
Theorem construct_header_raises_iff (self : RatSocket) (length : Z)
    (flags : pystr) (offset : Z) :
  flag_field flags ->
  (all_fit self length offset <->
   exists header,
     construct_header self length flags offset = Ok header
     /\ List.length header = 64%nat)
  /\ (~ all_fit self length offset <->
      construct_header self length flags offset = Raise NumberOutOfRange).
Proof.
  intros Hf.
  destruct (construct_header_cases self length flags offset Hf)
    as [[Hfit (header & E & L)] | [Hno E]].
  - split; split.
    + intros _. now exists header.
    + intros _. exact Hfit.
    + intros H. contradiction.
    + rewrite E. discriminate.
  - split; split.
    + intros H. contradiction.
    + intros (header & E' & _). rewrite E in E'. discriminate.
    + intros _. exact E.
    + intros _. exact Hno.
Qed.

Lemma construct_header_raises_iff_witness :
  (all_fit example_socket 65536 0 <->
   exists header,
     construct_header example_socket 65536 (flag_set [ACK]) 0 = Ok header
     /\ List.length header = 64%nat)
  /\ (~ all_fit example_socket 65536 0 <->
      construct_header example_socket 65536 (flag_set [ACK]) 0
      = Raise NumberOutOfRange).
Proof.
  apply (construct_header_raises_iff example_socket 65536 (flag_set [ACK]) 0).
  exists (b_lit "10000000"). repeat split; reflexivity.
Defined.

(** X6.  The flags argument is not checked.  With numbers in range and
    flags any text of 7-bit characters, [construct_header] returns
    [56 + len(flags)] octets; when the text does not have exactly eight
    characters, [decode_rat_header] refuses that header as malformed. *)
Theorem flags_length_unchecked (self : RatSocket) (length : Z)
    (flags : pystr) (offset : Z) :
  in_range self length offset -> ascii_text flags ->
  exists header,
    construct_header self length flags offset = Ok header
    /\ List.length header = (56 + List.length flags)%nat
    /\ (List.length flags <> 8%nat ->
        decode_rat_header header = Raise HeaderMalformed).
Proof.
  intros (A1 & A2 & A3 & A5) Hf.
  destruct (zero_pad_16 _ A1) as (f1 & E1 & [L1 _] & _).
  destruct (zero_pad_16 _ A2) as (f2 & E2 & [L2 _] & _).
  destruct (zero_pad_16 _ A3) as (f3 & E3 & [L3 _] & _).
  destruct (zero_pad_8 _ A5) as (f5 & E5 & [L5 _] & _).
  unfold construct_header.
  rewrite E1, E2, E3, (utf8_ascii_text flags Hf), E5. cbn [rbind app].
  eexists. split; [reflexivity |].
  assert (L : List.length ((((f1 ++ f2) ++ f3) ++ map chr8 flags) ++ f5)
              = (56 + List.length flags)%nat).
  { rewrite !length_app, length_map, L1, L2, L3, L5. lia. }
  split; [exact L |]. intros Hne. apply decode_malformed_iff. lia.
Qed.

Lemma flags_length_unchecked_witness :
  exists header,
    construct_header example_socket 0 (s_lit "101") 0 = Ok header
    /\ List.length header = (56 + List.length (s_lit "101"))%nat
    /\ (List.length (s_lit "101") <> 8%nat ->
        decode_rat_header header = Raise HeaderMalformed).
Proof.
  apply (flags_length_unchecked example_socket 0 (s_lit "101") 0).
  - unfold in_range. cbn. lia.
  - unfold ascii_text. repeat (apply Forall_cons; [reflexivity |]).
    apply Forall_nil.
Defined.

(** ** What decoding can return *)

Lemma lstrip_length (s : bytes) : (List.length (lstrip s) <= List.length s)%nat.
Proof.
  induction s as [| c t IH]; cbn [lstrip]; [lia |].
  destruct (is_space c); cbn [List.length]; lia.
Qed.

Lemma split_sign_length (s : bytes) :
  let '(negative, t) := split_sign s in
  (List.length t <= List.length s)%nat
  /\ (negative = true -> (List.length t < List.length s)%nat).
Proof.
  unfold split_sign. destruct s as [| c t]; [cbn; split; [lia | discriminate] |].
  destruct (Ascii.eqb c "+"); [cbn; split; [lia | discriminate] |].
  destruct (Ascii.eqb c "-"); cbn; split; try lia; discriminate.
Qed.

Lemma skip_prefix_length (s : bytes) :
  (List.length (skip_prefix s) <= List.length s)%nat.
Proof.
  unfold skip_prefix. destruct s as [| c0 [| c1 t]]; try lia.
  destruct (_ && _); [| lia].
  destruct t as [| u t']; [cbn; lia |].
  destruct (Ascii.eqb u "_"); cbn; lia.
Qed.

(** The digits read make a number below [2 ^ digits]. *)
Lemma scan_bin_bound (s : bytes) (prev_us : bool) (acc : Z) (n : nat)
    (v : Z) (n' : nat) (rest : bytes) :
  0 <= acc -> scan_bin s prev_us acc n = Some (v, n', rest) ->
  exists k,
    n' = (n + k)%nat /\ (k <= List.length s)%nat
    /\ acc * 2 ^ Z.of_nat k <= v < (acc + 1) * 2 ^ Z.of_nat k.
Proof.
  revert prev_us acc n. induction s as [| c t IH]; intros p acc n Hacc E.
  - cbn in E. destruct p; [discriminate |]. injection E as <- <- <-.
    exists 0%nat. cbn. repeat split; lia.
  - cbn [scan_bin] in E.
    assert (Hstep : forall acc', 0 <= acc' ->
              2 * acc <= acc' <= 2 * acc + 1 ->
              scan_bin t false acc' (S n) = Some (v, n', rest) ->
              exists k,
                n' = (n + k)%nat /\ (k <= List.length (c :: t))%nat
                /\ acc * 2 ^ Z.of_nat k <= v < (acc + 1) * 2 ^ Z.of_nat k).
    { intros acc' H0 H1 E'. destruct (IH _ _ _ H0 E') as (k & -> & Hk & Hv).
      exists (S k). cbn [List.length].
      rewrite Nat2Z.inj_succ, Z.pow_succ_r by lia.
      assert (0 < 2 ^ Z.of_nat k) by (apply Z.pow_pos_nonneg; lia).
      repeat split; try lia; nia. }
    destruct (Ascii.eqb c "0"); [apply (Hstep (2 * acc)); auto; lia |].
    destruct (Ascii.eqb c "1"); [apply (Hstep (2 * acc + 1)); auto; lia |].
    destruct (Ascii.eqb c "_").
    + destruct p; [discriminate |].
      destruct (IH _ _ _ Hacc E) as (k & -> & Hk & Hv).
      exists k. cbn [List.length]. repeat split; lia.
    + destruct p; [discriminate |]. injection E as <- <- <-.
      exists 0%nat. cbn. repeat split; lia.
Qed.

(** [int(b, 2)] is bounded by the length of [b]. *)
Lemma int2_bound (b : bytes) (v : Z) :
  int2 b = Ok v ->
  - 2 ^ Z.of_nat (List.length b - 1) < v < 2 ^ Z.of_nat (List.length b).
Proof.
  unfold int2. pose proof (lstrip_length b) as H1.
  pose proof (split_sign_length (lstrip b)) as H2.
  destruct (split_sign (lstrip b)) as [negative s]. destruct H2 as [H2 H2'].
  pose proof (skip_prefix_length s) as H3.
  destruct (skip_prefix s) as [| c t] eqn:Es; [discriminate |].
  destruct (Ascii.eqb c "_"); [discriminate |].
  destruct (scan_bin (c :: t) false 0 0) as [[[v' nd] rest] |] eqn:E;
    [| discriminate].
  destruct (scan_bin_bound (c :: t) false 0 0 v' nd rest ltac:(lia) E)
    as (k & _ & Hk & Hv).
  destruct nd; [discriminate |]. destruct (lstrip rest); [| discriminate].
  intros [= <-].
  assert (Hp : forall a c : nat, (a <= c)%nat ->
                 2 ^ Z.of_nat a <= 2 ^ Z.of_nat c)
    by (intros; apply Z.pow_le_mono_r; lia).
  assert (Hpos : forall a : nat, 0 < 2 ^ Z.of_nat a)
    by (intros; apply Z.pow_pos_nonneg; lia).
  pose proof (Hpos (List.length b - 1)%nat).
  destruct negative.
  - specialize (H2' eq_refl).
    pose proof (Hp k (List.length b - 1)%nat ltac:(lia)). pose proof (Hpos k).
    pose proof (Hpos (List.length b)). lia.
  - pose proof (Hp k (List.length b) ltac:(lia)). lia.
Qed.

(** X7.  Whatever 64 octets arrive, the numbers of a decoded header are
    bounded: [stream_id], [seq_num] and [length] lie strictly between
    -32768 and 65536 and [offset] strictly between -128 and 256, each a
    number [zero_pad] accepts for its field, and the flag text has at most
    eight characters. *)
Theorem decode_bounds (b : bytes) (h : Header) :
  decode_rat_header b = Ok h ->
  fits (h_stream_id h) 16 /\ fits (h_seq_num h) 16 /\ fits (h_length h) 16
  /\ fits (h_offset h) 8 /\ (List.length (h_flags h) <= 8)%nat.
Proof.
  unfold decode_rat_header, RAT_HEADER_SIZE.
  destruct (Nat.eqb_spec (List.length b) 64) as [L | L]; [| discriminate].
  cbn [negb].
  destruct (int2 (slice 0 16 b)) as [v1 |] eqn:E1; [| discriminate].
  destruct (int2 (slice 16 32 b)) as [v2 |] eqn:E2; [| discriminate].
  destruct (int2 (slice 32 48 b)) as [v3 |] eqn:E3; [| discriminate].
  destruct (utf8_decode (slice 48 56 b)) as [fl |] eqn:Ef; [| discriminate].
  destruct (int2 (slice 56 64 b)) as [v5 |] eqn:E5; [| discriminate].
  cbn [rbind]. intros [= <-]. cbn [h_stream_id h_seq_num h_length h_offset
    h_flags].
  apply int2_bound in E1, E2, E3, E5.
  rewrite slice_length in E1, E2, E3, E5 by lia.
  unfold fits. repeat split; try (cbn in *; lia).
  clear - Ef L.
  assert (H : forall n (x : bytes) r,
            (List.length x <= n)%nat -> utf8_decode x = Ok r ->
            (List.length r <= List.length x)%nat).
  { induction n as [| n IH]; intros x r Hx E.
    - destruct x; [| cbn in Hx; lia]. cbn in E. injection E as <-. cbn. lia.
    - assert (Hrec : forall (t : bytes) (f : pystr -> pystr) r0,
                (List.length t <= n)%nat ->
                (forall y, List.length (f y) = S (List.length y)) ->
                rbind (utf8_decode t) (fun y => Ok (f y)) = Ok r0 ->
                (List.length r0 <= S (List.length t))%nat).
      { intros t f r0 Ht Hf E0.
        destruct (utf8_decode t) as [y |] eqn:Ey; [| discriminate].
        cbn in E0. injection E0 as <-. rewrite Hf.
        pose proof (IH t y Ht Ey). lia. }
      destruct x as [| c0 t0]; [cbn in E; injection E as <-; cbn; lia |].
      cbn [utf8_decode] in E. cbn [List.length] in *.
      destruct (ord c0 <? 128)%N.
      { apply Hrec in E; [lia | lia | reflexivity]. }
      destruct t0 as [| c1 t1]; [discriminate |]. cbn [List.length] in *.
      destruct ((194 <=? ord c0) && (ord c0 <=? 223))%N.
      { destruct (is_cont (ord c1)); [| discriminate].
        apply Hrec in E; [lia | lia | reflexivity]. }
      destruct t1 as [| c2 t2]; [discriminate |]. cbn [List.length] in *.
      destruct ((224 <=? ord c0) && (ord c0 <=? 239))%N.
      { match type of E with (if ?c then _ else _) = _ => destruct c end;
          [| discriminate].
        apply Hrec in E; [lia | lia | reflexivity]. }
      destruct t2 as [| c3 t3]; [discriminate |]. cbn [List.length] in *.
      destruct ((240 <=? ord c0) && (ord c0 <=? 244))%N; [| discriminate].
      match type of E with (if ?c then _ else _) = _ => destruct c end;
        [| discriminate].
      apply Hrec in E; [lia | lia | reflexivity]. }
  pose proof (H _ _ _ (le_n _) Ef) as Hl.
  rewrite slice_length in Hl by lia. exact Hl.
Qed.

Lemma decode_bounds_witness :
  fits 0 16 /\ fits 0 16 /\ fits 0 16 /\ fits 0 8
  /\ (List.length (s_lit "00000100") <= 8)%nat.
Proof.
  apply (decode_bounds hlo_segment (mkHeader 0 0 0 (s_lit "00000100") 0)).
  reflexivity.
Defined.

(** ** More on the flag codec *)

Lemma canonical_In (F : list Flag) (f : Flag) : In f (canonical F) <-> In f F.
Proof.
  unfold canonical. rewrite filter_In, flag_in_In.
  split; [tauto |]. intros H. split; [| exact H]. destruct f; cbn; tauto.
Qed.

Lemma flag_in_ext (F G : list Flag) :
  (forall f, In f F <-> In f G) -> forall f, flag_in f F = flag_in f G.
Proof.
  intros H f. pose proof (flag_in_In f F). pose proof (flag_in_In f G).
  specialize (H f). destruct (flag_in f F), (flag_in f G); intuition congruence.
Qed.

(** X8.  [flag_set] depends on the members of its argument only: two
    collections of flags give the same field if and only if they have the
    same members, whatever their order and repetitions. *)
Theorem flag_set_same_members (F G : list Flag) :
  flag_set F = flag_set G <-> (forall f, In f F <-> In f G).
Proof.
  split.
  - intros E f. rewrite <- (canonical_In F), <- (canonical_In G).
    pose proof (flag_decode_flag_set F) as HF.
    pose proof (flag_decode_flag_set G) as HG.
    rewrite E in HF. rewrite HF in HG. injection HG as ->. reflexivity.
  - intros H. rewrite !flag_set_unfold. f_equal. apply map_ext.
    intros f. f_equal. now apply flag_in_ext.
Qed.

(** Eight characters, decoded. *)
Lemma flag_decode_eight (c0 c1 c2 c3 c4 c5 c6 c7 : N) (rest : pystr) :
  flag_decode (c0 :: c1 :: c2 :: c3 :: c4 :: c5 :: c6 :: c7 :: rest)
  = Ok (pick (map (fun c => (c =? ord "1")%N) [c0; c1; c2; c3; c4; c5; c6; c7])
          RAT_FLAG_ORDER).
Proof.
  unfold flag_decode. cbn [seq fold_left nth_error rbind RAT_FLAG_ORDER map].
  destruct (c0 =? ord "1")%N, (c1 =? ord "1")%N, (c2 =? ord "1")%N,
    (c3 =? ord "1")%N, (c4 =? ord "1")%N, (c5 =? ord "1")%N,
    (c6 =? ord "1")%N, (c7 =? ord "1")%N; reflexivity.
Qed.

(** X9.  [flag_decode] fails exactly on fields shorter than eight
    characters, and then with [IndexError]; it reads the first eight
    characters and ignores the rest. *)
Theorem flag_decode_short (s : pystr) :
  (flag_decode s = Raise IndexError <-> (List.length s < 8)%nat)
  /\ (forall e, flag_decode s = Raise e -> e = IndexError)
  /\ flag_decode s = flag_decode (firstn 8 s).
Proof.
  do 8 (destruct s as [| ? s];
        [ cbn [firstn]; unfold flag_decode;
          cbn [seq fold_left nth_error rbind RAT_FLAG_ORDER];
          repeat match goal with
                 | |- context [(?c =? ord "1")%N] =>
                     destruct (c =? ord "1")%N
                 end;
          cbn [rbind List.length firstn];
          (split; [split; [intros _; lia | reflexivity] |
                   split; [now intros e [= <-] | reflexivity]])
        | ]).
  cbn [firstn]. rewrite !flag_decode_eight. cbn [List.length].
  split; [split; [discriminate | lia] |]. split; [discriminate | reflexivity].
Qed.

(** X10.  Decoding, then encoding, a flag field.  On a field of eight
    characters [flag_decode] succeeds, its result lists distinct flags in
    the fixed order, and [flag_set] of that result is the field with every
    character other than ["1"] replaced by ["0"]: the field itself when it
    is an 8-flag field value. *)
Theorem flag_set_flag_decode (s : pystr) :
  List.length s = 8%nat ->
  exists F,
    flag_decode s = Ok F
    /\ F = pick (map (fun c => (c =? ord "1")%N) s) RAT_FLAG_ORDER
    /\ NoDup F
    /\ flag_set F = map normal_bit s
    /\ (flag_field s -> flag_set F = s).
Proof.
  intros L.
  do 8 (destruct s as [| ? s]; [discriminate |]).
  destruct s; [| discriminate]. clear L.
  eexists. split; [apply flag_decode_eight |]. split; [reflexivity |].
  assert (Hn : flag_set
                 (pick (map (fun c => (c =? ord "1")%N)
                          [n; n0; n1; n2; n3; n4; n5; n6]) RAT_FLAG_ORDER)
               = map normal_bit [n; n0; n1; n2; n3; n4; n5; n6]).
  { unfold normal_bit. cbn [map].
    destruct (n =? ord "1")%N, (n0 =? ord "1")%N, (n1 =? ord "1")%N,
      (n2 =? ord "1")%N, (n3 =? ord "1")%N, (n4 =? ord "1")%N,
      (n5 =? ord "1")%N, (n6 =? ord "1")%N; reflexivity. }
  split; [| split; [exact Hn |]].
  - cbn [map].
    destruct (n =? ord "1")%N, (n0 =? ord "1")%N, (n1 =? ord "1")%N,
      (n2 =? ord "1")%N, (n3 =? ord "1")%N, (n4 =? ord "1")%N,
      (n5 =? ord "1")%N, (n6 =? ord "1")%N; cbn [pick RAT_FLAG_ORDER];
      repeat (constructor; [cbn; intuition discriminate |]); constructor.
  - intros (f & [_ B] & E). rewrite Hn, E. rewrite map_map.
    apply map_ext_in. intros c Hc. rewrite forallb_forall in B.
    destruct (is_bit_cases c (B c Hc)); subst c; reflexivity.
Qed.

Lemma flag_set_flag_decode_witness :
  exists F,
    flag_decode (s_lit "10000100") = Ok F
    /\ F = pick (map (fun c => (c =? ord "1")%N) (s_lit "10000100"))
             RAT_FLAG_ORDER
    /\ NoDup F
    /\ flag_set F = map normal_bit (s_lit "10000100")
    /\ (flag_field (s_lit "10000100") -> flag_set F = s_lit "10000100").
Proof. apply (flag_set_flag_decode (s_lit "10000100")). reflexivity. Defined.



(** ** Listening *)

Lemma State_eqb_eq (a b : State) : State_eqb a b = true <-> a = b.
Proof.
  split; [destruct a, b; cbv; congruence | intros ->; destruct b; reflexivity].
Qed.

Lemma network_calls_log (e : io_event) (w : World) :
  network_calls (log e w)
  = network_calls w ++ (if network_io e then [e] else []).
Proof. unfold network_calls, log. cbn [trace]. now rewrite filter_app. Qed.

(** X12.  [listen] on an unopened socket whose [bind] succeeds returns
    normally, and the socket it leaves is the one it found with three
    things changed: the state is [SOCK_SERVOPEN], the UDP socket is bound
    to the given address and port, and [num_connections] is the number
    given.  Every other attribute is as it was, the timeout of the UDP
    socket included.  The bind is the one call it makes to the network. *)
Theorem listen_opens (addr : string) (port n : Z) (self : RatSocket)
    (w : World) :
  current_state self = SOCK_UNOPENED ->
  env_bind (env w) (count is_bind w) = true ->
  exists w',
    listen addr port n self w
    = (Ok tt,
       mkRatSocket SOCK_SERVOPEN
         (mkUdp (fd (udp self)) (timeout (udp self)) (Some (addr, port)))
         (stream_id self) (seq_num self) (window_size self)
         (remote_addr self) (active_streams self) (sock_queue self)
         (obey_keepalives self) n (debug_mode self),
       w')
    /\ network_calls w'
       = network_calls w ++ [EvBind (fd (udp self)) (addr, port)].
Proof.
  intros Hs Hb. unfold listen, bind. rewrite state_check_one, Hs.
  cbn [State_eqb State_value Z.eqb Pos.eqb]. unfold udp_bind. rewrite Hb.
  unfold assign, debug_print.
  unfold set_current_state, set_num_connections, set_udp.
  cbn [debug_mode udp stream_id seq_num window_size remote_addr
       active_streams sock_queue obey_keepalives num_connections].
  destruct (debug_mode self); eexists; (split; [reflexivity |]);
    rewrite ?network_calls_log; cbn; now rewrite ?app_nil_r.
Qed.

Lemma listen_opens_witness :
  exists w',
    listen "127.0.0.1" 5001 5 fresh_socket fresh_world
    = (Ok tt,
       mkRatSocket SOCK_SERVOPEN
         (mkUdp (fd (udp fresh_socket)) (timeout (udp fresh_socket))
            (Some ("127.0.0.1"%string, 5001)))
         (stream_id fresh_socket) (seq_num fresh_socket)
         (window_size fresh_socket) (remote_addr fresh_socket)
         (active_streams fresh_socket) (sock_queue fresh_socket)
         (obey_keepalives fresh_socket) 5 (debug_mode fresh_socket),
       w')
    /\ network_calls w'
       = network_calls fresh_world
         ++ [EvBind (fd (udp fresh_socket)) ("127.0.0.1"%string, 5001)].
Proof.
  apply (listen_opens "127.0.0.1" 5001 5 fresh_socket fresh_world);
    reflexivity.
Defined.

(** X13.  [listen] is all or nothing.  It returns normally exactly when
    the socket is unopened and the bind succeeds; whenever it raises, the
    socket is left as it was, so it is not in [SOCK_SERVOPEN] unless it
    already was; and on a socket that is not unopened it raises before
    any call is made. *)
Theorem listen_all_or_nothing (addr : string) (port n : Z)
    (self : RatSocket) (w : World) :
  (fst (fst (listen addr port n self w)) = Ok tt
   <-> current_state self = SOCK_UNOPENED
       /\ env_bind (env w) (count is_bind w) = true)
  /\ (fst (fst (listen addr port n self w)) <> Ok tt ->
      snd (fst (listen addr port n self w)) = self)
  /\ (current_state self <> SOCK_UNOPENED ->
      listen addr port n self w = (Raise TypeError, self, w)).
Proof.
  unfold listen, bind. rewrite state_check_one.
  destruct (State_eqb (current_state self) SOCK_UNOPENED) eqn:Es.
  - apply State_eqb_eq in Es. unfold udp_bind.
    destruct (env_bind (env w) (count is_bind w)) eqn:Eb.
    + unfold assign, debug_print. cbn [debug_mode set_current_state
        set_num_connections set_udp].
      destruct (debug_mode self); cbn [fst snd];
        (split; [tauto |]); split; congruence.
    + cbn [fst snd]. split; [| split; congruence].
      split; [discriminate | intros [_ H]; discriminate].
  - cbn [fst snd]. split; [| split; reflexivity].
    split; [discriminate |]. intros [H _]. apply State_eqb_eq in H. congruence.
Qed.

(** ** Accepting *)

(** [accept] up to the test of the HLO flag, when a datagram arrives that
    decodes. *)
Lemma accept_reads (self : RatSocket) (w : World) (data : bytes)
    (from : address) (hlo : Header) (flags : list Flag) :
  current_state self = SOCK_SERVOPEN ->
  env_recv (env w) (count is_recvfrom w) = Datagram data from ->
  decode_rat_header (firstn 64 data) = Ok hlo ->
  flag_decode (h_flags hlo) = Ok flags ->
  exists w1,
    adds (fun e => is_sendto e = false /\ is_bind e = false
                   /\ is_socket e = false /\ is_randrange e = false) w w1
    /\ count is_recvfrom w1 = S (count is_recvfrom w)
    /\ accept self w
       = nonblocking
         (if flag_in HLO flags then
            (udp_settimeout (Some RAT_REPLY_TIMEOUT) ;;
             debug_print DEBUG_SERV_RECV_HLO ;;
             client <- new_RatSocket false ;;
             let client := set_remote_addr from client in
             let client := set_current_state SOCK_HLORECV client in
             r <- randrange 1 RAT_MAX_STREAM_ID ;;
             let client := set_stream_id r client in
             let client := set_window_size RAT_DEFAULT_WINDOW client in
             let client := set_seq_num (seq_num client + 1) client in
             assign (fun self =>
                       set_active_streams (active_streams self ++ [client])
                         self) ;;
             raise (NameError "flag_header"))
          else ret AcceptFalse) self w1.
Proof.
  intros Hs Hr Hd Hf.
  set (w0 := if debug_mode self then log (EvPrint DEBUG_LISTEN_HLO) w else w).
  assert (H0 : env w0 = env w /\ count is_recvfrom w0 = count is_recvfrom w
               /\ exists added, trace w0 = trace w ++ added
                    /\ Forall (fun e => is_sendto e = false
                                        /\ is_bind e = false
                                        /\ is_socket e = false
                                        /\ is_randrange e = false) added).
  { unfold w0. destruct (debug_mode self).
    - rewrite count_log. cbn. split; [reflexivity |]. split; [lia |].
      eexists. split; [reflexivity |]. repeat constructor.
    - split; [reflexivity |]. split; [reflexivity |].
      exists []. rewrite app_nil_r. split; [reflexivity | constructor]. }
  destruct H0 as (He & Hc & added & Ht & Ha).
  exists (log (EvRecvFrom (fd (udp self)) RAT_HEADER_SIZE) w0).
  split; [| split].
  - split; [exact He |]. exists (added ++ [EvRecvFrom (fd (udp self)) 64]).
    split.
    + unfold log. cbn [trace]. rewrite Ht. now rewrite app_assoc.
    + apply Forall_app. split; [exact Ha | repeat constructor].
  - rewrite count_log. cbn. lia.
  - unfold accept, bind_blocking at 1, nonblocking at 1.
    rewrite state_check_one, Hs.
    cbn [State_eqb State_value Z.eqb Pos.eqb].
    unfold bind_blocking at 1, nonblocking at 1. unfold debug_print at 1.
    fold w0.
    assert (E : (if debug_mode self
                 then (Ok tt, self, log (EvPrint DEBUG_LISTEN_HLO) w)
                 else (Ok tt, self, w)) = (Ok tt, self, w0))
      by (unfold w0; now destruct (debug_mode self)).
    rewrite E. unfold bind_blocking at 1. unfold udp_recvfrom at 1.
    rewrite He, Hc, Hr. change RAT_HEADER_SIZE with 64%nat.
    unfold bind_blocking at 1, nonblocking at 1, lift at 1. rewrite Hd.
    unfold bind_blocking at 1, nonblocking at 1, lift at 1. rewrite Hf.
    destruct (flag_in HLO flags); [| reflexivity].
    unfold bind_blocking, nonblocking, bind, udp_settimeout, debug_print,
      new_RatSocket, RatSocket_init, randrange, assign, raise.
    cbn [debug_mode set_udp].
    destruct (debug_mode self); reflexivity.
Qed.

(** X14.  A datagram without the HLO flag.  When the listener is in
    [SOCK_SERVOPEN] and the next datagram decodes to a header whose flags
    do not include HLO, [accept] returns [False]; the listener is exactly
    as it was (no child, no timeout), one datagram has been read, and
    nothing has been sent. *)
Theorem accept_ignores_other_segments (self : RatSocket) (w : World)
    (data : bytes) (from : address) (hlo : Header) (flags : list Flag) :
  current_state self = SOCK_SERVOPEN ->
  env_recv (env w) (count is_recvfrom w) = Datagram data from ->
  decode_rat_header (firstn 64 data) = Ok hlo ->
  flag_decode (h_flags hlo) = Ok flags ->
  flag_in HLO flags = false ->
  exists w',
    accept self w = (Ends (Ok AcceptFalse), self, w')
    /\ count is_recvfrom w' = S (count is_recvfrom w)
    /\ count is_sendto w' = count is_sendto w.
Proof.
  intros Hs Hr Hd Hf Hn.
  destruct (accept_reads self w data from hlo flags Hs Hr Hd Hf)
    as (w1 & (_ & added & Ht & Ha) & Hc & E).
  rewrite Hn in E. exists w1. split; [exact E |]. split; [exact Hc |].
  unfold count. rewrite Ht, filter_app, length_app.
  replace (filter is_sendto added) with (@nil io_event); [cbn; lia |].
  symmetry. clear - Ha. induction Ha as [| e l [He _] _ IH]; [reflexivity |].
  cbn. now rewrite He.
Qed.

Lemma accept_ignores_other_segments_witness :
  exists w',
    accept open_socket (world0 ack_arrives)
    = (Ends (Ok AcceptFalse), open_socket, w')
    /\ count is_recvfrom w' = S (count is_recvfrom (world0 ack_arrives))
    /\ count is_sendto w' = count is_sendto (world0 ack_arrives).
Proof.
  apply (accept_ignores_other_segments open_socket (world0 ack_arrives)
           ack_segment ("10.0.0.2"%string, 4000)
           (mkHeader 42 7 0 (s_lit "10000000") 0) [ACK]); reflexivity.
Defined.

(** X15.  A datagram with the HLO flag.  When the listener is in
    [SOCK_SERVOPEN] and the next datagram decodes to a header whose flags
    include HLO, [accept] raises [NameError]; by then the listener has the
    reply timeout set and one more entry in [active_streams]: a child in
    [SOCK_HLORECV] for the sender of the datagram, with sequence number 1,
    the default window, and a [stream_id] between 1 and 65534 that is
    drawn without regard to the identifiers already in use.  The
    listener's state is unchanged and nothing has been sent. *)
Theorem accept_registers_child (self : RatSocket) (w : World)
    (data : bytes) (from : address) (hlo : Header) (flags : list Flag) :
  current_state self = SOCK_SERVOPEN ->
  env_recv (env w) (count is_recvfrom w) = Datagram data from ->
  decode_rat_header (firstn 64 data) = Ok hlo ->
  flag_decode (h_flags hlo) = Ok flags ->
  flag_in HLO flags = true ->
  exists self' w' child,
    accept self w = (Ends (Raise (NameError "flag_header")), self', w')
    /\ active_streams self' = active_streams self ++ [child]
    /\ (current_state child = SOCK_HLORECV
        /\ remote_addr child = from
        /\ seq_num child = 1
        /\ window_size child = RAT_DEFAULT_WINDOW
        /\ stream_id child
           = 1 + env_rand (env w) (count is_randrange w) mod 65534
        /\ 1 <= stream_id child <= 65534)
    /\ (current_state self' = SOCK_SERVOPEN
        /\ timeout (udp self') = Some RAT_REPLY_TIMEOUT
        /\ stream_id self' = stream_id self
        /\ seq_num self' = seq_num self)
    /\ count is_sendto w' = count is_sendto w.
Proof.
  intros Hs Hr Hd Hf Hy.
  destruct (accept_reads self w data from hlo flags Hs Hr Hd Hf)
    as (w1 & (He & added & Ht & Ha) & Hc & E).
  rewrite Hy in E. rewrite E. clear E.
  assert (Hfil : forall p : io_event -> bool,
            (forall e, (is_sendto e = false /\ is_bind e = false
                        /\ is_socket e = false /\ is_randrange e = false)
                       -> p e = false) ->
            count p w1 = count p w).
  { intros p Hp. unfold count. rewrite Ht, filter_app, length_app.
    replace (filter p added) with (@nil io_event); [cbn; lia |].
    symmetry. clear - Ha Hp. induction Ha as [| e l He _ IH]; [reflexivity |].
    cbn. now rewrite (Hp e He). }
  assert (Hsend : count is_sendto w1 = count is_sendto w)
    by (apply Hfil; tauto).
  assert (Hrand : count is_randrange w1 = count is_randrange w)
    by (apply Hfil; tauto).
  unfold nonblocking, bind, udp_settimeout, debug_print, new_RatSocket,
    RatSocket_init, randrange, assign, raise.
  cbn [debug_mode set_udp].
  pose proof (Z.mod_pos_bound (env_rand (env w) (count is_randrange w)) 65534
                ltac:(lia)) as Hm.
  destruct (debug_mode self); do 3 eexists; (split; [reflexivity |]);
    (split; [cbn [active_streams set_active_streams set_udp]; reflexivity |]);
    cbn [active_streams set_active_streams set_udp current_state remote_addr
         seq_num window_size stream_id set_seq_num set_window_size
         set_stream_id set_current_state set_remote_addr udp timeout];
    rewrite ?count_log, ?Hrand, ?Hsend, ?He, ?Hs; cbn [env log is_randrange
      is_sendto Nat.add]; rewrite ?Nat.add_0_r, ?Hrand, ?He;
    unfold RAT_MAX_STREAM_ID; change (65535 - 1) with 65534;
    repeat split; try reflexivity; try lia.
Qed.

Lemma accept_registers_child_witness :
  exists self' w' child,
    accept listener listener_world
    = (Ends (Raise (NameError "flag_header")), self', w')
    /\ active_streams self' = active_streams listener ++ [child]
    /\ (current_state child = SOCK_HLORECV
        /\ remote_addr child = ("10.0.0.2"%string, 4000)
        /\ seq_num child = 1
        /\ window_size child = RAT_DEFAULT_WINDOW
        /\ stream_id child
           = 1 + env_rand (env listener_world)
                   (count is_randrange listener_world) mod 65534
        /\ 1 <= stream_id child <= 65534)
    /\ (current_state self' = SOCK_SERVOPEN
        /\ timeout (udp self') = Some RAT_REPLY_TIMEOUT
        /\ stream_id self' = stream_id listener
        /\ seq_num self' = seq_num listener)
    /\ count is_sendto w' = count is_sendto listener_world.
Proof.
  apply (accept_registers_child listener listener_world hlo_segment
           ("10.0.0.2"%string, 4000)
           (mkHeader 0 0 0 (s_lit "00000100") 0) [HLO]); reflexivity.
Defined.

(** X23.  [accept] on a silent network.  When the listener is in
    [SOCK_SERVOPEN] and no datagram arrives, what [accept] does depends on
    the timeout of the listener's UDP socket.  Without one, as [__init__]
    and [listen] leave it, [accept] never returns.  With one, as an
    earlier [accept] that received an HLO leaves it, [accept] raises the
    socket's timeout error.  Either way the listener is what it was, the
    one call to the network is the receive, and nothing is sent. *)
Theorem accept_waits (self : RatSocket) (w : World) :
  current_state self = SOCK_SERVOPEN ->
  env_recv (env w) (count is_recvfrom w) = NoDatagram ->
  exists w',
    accept self w
    = (match timeout (udp self) with
       | None => Blocks
       | Some _ => Ends (Raise SocketError)
       end, self, w')
    /\ network_calls w'
       = network_calls w ++ [EvRecvFrom (fd (udp self)) RAT_HEADER_SIZE].
Proof.
  intros Hs Hr.
  unfold accept, bind_blocking at 1, nonblocking at 1.
  rewrite state_check_one, Hs. cbn [State_eqb State_value Z.eqb Pos.eqb].
  unfold bind_blocking at 1, nonblocking at 1, debug_print at 1.
  unfold bind_blocking at 1, udp_recvfrom at 1.
  destruct (debug_mode self).
  - rewrite count_log. cbn [env log is_recvfrom]. rewrite Nat.add_0_r, Hr.
    destruct (timeout (udp self)); eexists; (split; [reflexivity |]);
      rewrite !network_calls_log; cbn; now rewrite app_nil_r.
  - rewrite Hr.
    destruct (timeout (udp self)); eexists; (split; [reflexivity |]);
      now rewrite network_calls_log.
Qed.

Lemma accept_waits_witness :
  exists w',
    accept listener (world0 silent_env)
    = (match timeout (udp listener) with
       | None => Blocks
       | Some _ => Ends (Raise SocketError)
       end, listener, w')
    /\ network_calls w'
       = network_calls (world0 silent_env)
         ++ [EvRecvFrom (fd (udp listener)) RAT_HEADER_SIZE].
Proof.
  apply (accept_waits listener (world0 silent_env)); reflexivity.
Defined.

(** ** Acknowledging *)

Lemma decode_fields (f1 f2 f3 ff f5 : bytes) :
  bit_field 16 f1 -> bit_field 16 f2 -> bit_field 16 f3 ->
  bit_field 8 ff -> bit_field 8 f5 ->
  decode_rat_header (f1 ++ f2 ++ f3 ++ ff ++ f5)
  = Ok (mkHeader (bits_value f1 0) (bits_value f2 0) (bits_value f3 0)
          (map ord ff) (bits_value f5 0)).
Proof.
  intros B1 B2 B3 Bf B5.
  pose proof (bit_field_int2 16 f1 ltac:(lia) B1) as V1.
  pose proof (bit_field_int2 16 f2 ltac:(lia) B2) as V2.
  pose proof (bit_field_int2 16 f3 ltac:(lia) B3) as V3.
  pose proof (bit_field_int2 8 f5 ltac:(lia) B5) as V5.
  pose proof (utf8_decode_ascii ff (bit_field_ascii7 8 ff Bf)) as Vf.
  destruct B1 as [L1 _], B2 as [L2 _], B3 as [L3 _], Bf as [Lf _],
    B5 as [L5 _].
  unfold decode_rat_header.
  rewrite !length_app, L1, L2, L3, Lf, L5. cbn [Nat.add Nat.eqb negb].
  rewrite (slice_prefix 16 f1) by exact L1.
  rewrite !(slice_skip 16 _ _ f1) by (assumption || lia).
  cbn [Nat.sub]. rewrite (slice_prefix 16 f2) by exact L2.
  rewrite !(slice_skip 16 _ _ f2) by (assumption || lia).
  cbn [Nat.sub]. rewrite (slice_prefix 16 f3) by exact L3.
  rewrite !(slice_skip 16 _ _ f3) by (assumption || lia).
  cbn [Nat.sub]. rewrite (slice_prefix 8 ff) by exact Lf.
  rewrite (slice_skip 8 _ _ ff) by (assumption || lia).
  cbn [Nat.sub]. rewrite (slice_all 8 f5) by exact L5.
  rewrite V1, V2, V3, Vf, V5. reflexivity.
Qed.

(** The header of in-range fields decodes to them. *)
Lemma decode_constructed (self : RatSocket) (length : Z) (flags : pystr)
    (offset : Z) :
  in_range self length offset -> flag_field flags ->
  exists header,
    construct_header self length flags offset = Ok header
    /\ decode_rat_header header
       = Ok (mkHeader (stream_id self) (seq_num self) length flags offset).
Proof.
  intros (A1 & A2 & A3 & A5) Hf.
  destruct (construct_header_fields self length flags offset A1 A2 A3 A5 Hf)
    as (f1 & f2 & f3 & ff & f5 & E & [B1 V1] & [B2 V2] & [B3 V3]
        & [Bf Ef] & [B5 V5]).
  eexists. split; [exact E |].
  rewrite (decode_fields f1 f2 f3 ff f5) by assumption.
  rewrite (bit_field_int2 16 f1) in V1 by (lia || assumption).
  rewrite (bit_field_int2 16 f2) in V2 by (lia || assumption).
  rewrite (bit_field_int2 16 f3) in V3 by (lia || assumption).
  rewrite (bit_field_int2 8 f5) in V5 by (lia || assumption).
  congruence.
Qed.

Lemma attempts_bounds (accepted : nat -> bool) (start n : nat) :
  (attempts accepted start n <= n)%nat
  /\ ((0 < n)%nat -> (1 <= attempts accepted start n)%nat).
Proof.
  revert start. induction n as [| n IH]; intros start; cbn [attempts];
    [lia |].
  destruct (accepted start); [lia |]. specialize (IH (S start)). lia.
Qed.

Lemma attempts_first (accepted : nat -> bool) (start n j : nat) :
  (j < n)%nat ->
  (forall i, (i < j)%nat -> accepted (start + i)%nat = false) ->
  accepted (start + j)%nat = true ->
  attempts accepted start n = S j.
Proof.
  revert start n. induction j as [| j IH]; intros start n Hj Hf Ht.
  - destruct n; [lia |]. cbn [attempts]. rewrite Nat.add_0_r in Ht.
    now rewrite Ht.
  - destruct n; [lia |]. cbn [attempts].
    pose proof (Hf 0%nat ltac:(lia)) as H0. rewrite Nat.add_0_r in H0.
    rewrite H0. f_equal. apply IH; [lia | |].
    + intros i Hi. specialize (Hf (S i) ltac:(lia)).
      now rewrite Nat.add_succ_r in Hf.
    + now rewrite Nat.add_succ_r in Ht.
Qed.

(** What the retry loop leaves in the trace. *)
Lemma ack_loop_trace (hdr : bytes) (n : nat) (self : RatSocket) (w : World) :
  ack_loop hdr n self w
  = (Ok tt, self,
     mkWorld (env w)
       (trace w
        ++ sends self hdr (attempts (env_send (env w)) (count is_sendto w) n))).
Proof.
  revert w. induction n as [| n IH]; intros w.
  - cbn. rewrite app_nil_r. now destruct w.
  - cbn [ack_loop attempts]. unfold try_except, bind, get, udp_sendto.
    destruct (env_send (env w) (count is_sendto w)) eqn:E.
    + reflexivity.
    + rewrite IH. rewrite count_log. cbn [is_sendto env log trace].
      rewrite Nat.add_1_r, <- app_assoc. reflexivity.
Qed.

Lemma ack_outcome (self : RatSocket) (w : World) :
  in_range self 0 0 ->
  exists hdr,
    ack self w
    = (Ok tt, set_seq_num (seq_num self + 1) self,
       mkWorld (env w)
         (trace w
          ++ sends self hdr
               (attempts (env_send (env w)) (count is_sendto w)
                  RAT_RETRY_TIMES)))
    /\ decode_rat_header hdr
       = Ok (mkHeader (stream_id self) (seq_num self) 0 (flag_set [ACK]) 0).
Proof.
  intros Hr.
  destruct (decode_constructed self 0 (flag_set [ACK]) 0 Hr
              (flag_set_field [ACK])) as (hdr & E & D).
  exists hdr. split; [| exact D].
  unfold ack, bind, get, lift, assign. rewrite E, ack_loop_trace. reflexivity.
Qed.

(** X16.  What [ack] transmits.  On a connection whose [stream_id] and
    [seq_num] are in range, the calls [ack] adds to the world are between
    one and five transmissions, and nothing else: each goes from the
    socket's descriptor to its [remote_addr] and carries the same 64
    octets, which decode to the header with the connection's [stream_id],
    the sequence number from before the increment, length 0, the single
    flag ACK and offset 0. *)
Theorem ack_transmits (self : RatSocket) (w : World) :
  0 <= stream_id self <= 65535 -> 0 <= seq_num self <= 65535 ->
  exists hdr k w',
    ack self w = (Ok tt, set_seq_num (seq_num self + 1) self, w')
    /\ env w' = env w
    /\ trace w'
       = trace w ++ repeat (EvSendTo (fd (udp self)) hdr (remote_addr self)) k
    /\ (1 <= k <= RAT_RETRY_TIMES)%nat
    /\ decode_rat_header hdr
       = Ok (mkHeader (stream_id self) (seq_num self) 0 (flag_set [ACK]) 0)
    /\ flag_decode (flag_set [ACK]) = Ok [ACK].
Proof.
  intros H1 H2.
  destruct (ack_outcome self w) as (hdr & E & D);
    [unfold in_range; lia |].
  pose proof (attempts_bounds (env_send (env w)) (count is_sendto w)
                RAT_RETRY_TIMES) as [Hle Hpos].
  specialize (Hpos ltac:(unfold RAT_RETRY_TIMES; lia)).
  do 3 eexists. split; [exact E |]. cbn [env trace]. unfold sends.
  repeat split; try assumption.
Qed.

Lemma ack_transmits_witness :
  exists hdr k w',
    ack example_socket (world0 ack_arrives)
    = (Ok tt, set_seq_num (seq_num example_socket + 1) example_socket, w')
    /\ env w' = env (world0 ack_arrives)
    /\ trace w'
       = trace (world0 ack_arrives)
         ++ repeat (EvSendTo (fd (udp example_socket)) hdr
                      (remote_addr example_socket)) k
    /\ (1 <= k <= RAT_RETRY_TIMES)%nat
    /\ decode_rat_header hdr
       = Ok (mkHeader (stream_id example_socket) (seq_num example_socket) 0
               (flag_set [ACK]) 0)
    /\ flag_decode (flag_set [ACK]) = Ok [ACK].
Proof.
  apply (ack_transmits example_socket (world0 ack_arrives)); cbn; lia.
Defined.

(** X17.  On a connection whose [stream_id] and [seq_num] are between 0
    and 65535, [ack] stops at the first transmission the socket layer
    accepts: when the next [j] calls of [sendto] fail and the one after
    them succeeds, with [j] below [RAT_RETRY_TIMES], [ack] makes exactly
    [j + 1] transmissions. *)
Theorem ack_stops_at_first_success (self : RatSocket) (w : World) (j : nat) :
  0 <= stream_id self <= 65535 -> 0 <= seq_num self <= 65535 ->
  (j < RAT_RETRY_TIMES)%nat ->
  (forall i, (i < j)%nat ->
     env_send (env w) (count is_sendto w + i)%nat = false) ->
  env_send (env w) (count is_sendto w + j)%nat = true ->
  count is_sendto (snd (ack self w)) = (count is_sendto w + S j)%nat.
Proof.
  intros H1 H2 Hj Hf Ht.
  destruct (ack_outcome self w) as (hdr & E & _);
    [unfold in_range; lia |].
  rewrite E. cbn [snd]. unfold count at 1. cbn [trace].
  rewrite (attempts_first _ _ _ j Hj Hf Ht).
  rewrite filter_app, length_app. fold (count is_sendto w). f_equal.
  unfold sends. generalize (S j). intros k.
  induction k as [| k IH]; [reflexivity |]. cbn. now rewrite IH.
Qed.

Lemma ack_stops_at_first_success_witness :
  count is_sendto (snd (ack example_socket (world0 ack_arrives)))
  = (count is_sendto (world0 ack_arrives) + 3)%nat.
Proof.
  apply (ack_stops_at_first_success example_socket (world0 ack_arrives) 2).
  - cbn. lia.
  - cbn. lia.
  - unfold RAT_RETRY_TIMES. lia.
  - intros i Hi. destruct i as [| [| i]]; [reflexivity | reflexivity | lia].
  - reflexivity.
Defined.

Lemma all_fit_ack (self : RatSocket) :
  all_fit self 0 0 <-> fits (stream_id self) 16 /\ fits (seq_num self) 16.
Proof.
  unfold all_fit. assert (fits 0 16) by (unfold fits; cbn; lia).
  assert (fits 0 8) by (unfold fits; cbn; lia). tauto.
Qed.

Lemma ack_cases (self : RatSocket) (w : World) :
  (fits (stream_id self) 16 /\ fits (seq_num self) 16
   /\ exists w', ack self w = (Ok tt, set_seq_num (seq_num self + 1) self, w'))
  \/ (~ (fits (stream_id self) 16 /\ fits (seq_num self) 16)
      /\ ack self w = (Raise NumberOutOfRange, self, w)).
Proof.
  destruct (construct_header_cases self 0 (flag_set [ACK]) 0
              (flag_set_field [ACK])) as [[Hfit (hdr & E & _)] | [Hno E]];
    rewrite all_fit_ack in *.
  - left. split; [tauto |]. split; [tauto |].
    unfold ack, bind, get, lift, assign. rewrite E, ack_loop_trace.
    eexists. reflexivity.
  - right. split; [exact Hno |].
    unfold ack, bind, get, lift. now rewrite E.
Qed.

(** X18.  [ack] returns normally exactly when [stream_id] and [seq_num]
    are numbers [zero_pad] accepts for a 16-character field; then
    [seq_num] has grown by one.  Otherwise it raises [NumberOutOfRange]
    before any transmission and leaves the socket and the world as they
    were, with [seq_num] not incremented. *)
Theorem ack_raises_iff (self : RatSocket) (w : World) :
  (fits (stream_id self) 16 /\ fits (seq_num self) 16
   <-> exists w',
         ack self w = (Ok tt, set_seq_num (seq_num self + 1) self, w'))
  /\ (~ (fits (stream_id self) 16 /\ fits (seq_num self) 16)
      <-> ack self w = (Raise NumberOutOfRange, self, w)).
Proof.
  destruct (ack_cases self w) as [(F1 & F2 & w' & E) | [Hno E]].
  - split; split.
    + intros _. now exists w'.
    + intros _. now split.
    + intros H. exfalso. apply H. now split.
    + rewrite E. discriminate.
  - split; split.
    + intros H. contradiction.
    + intros (w' & E'). rewrite E in E'. discriminate.
    + intros _. exact E.
    + intros _. exact Hno.
Qed.

(** X19.  Sequence numbers are not wrapped, so a connection has a fixed
    budget of acknowledgements: with a [stream_id] between 0 and 65535,
    from a [seq_num] between 0 and 65536 exactly [65536 - seq_num] calls
    of [ack] in a row return normally; they leave [seq_num] at 65536, and
    from then on every call of [ack] raises [NumberOutOfRange]. *)
Theorem ack_budget (self : RatSocket) (w : World) :
  0 <= stream_id self <= 65535 -> 0 <= seq_num self <= 65536 ->
  exists w',
    ack_times (Z.to_nat (65536 - seq_num self)) self w
    = (Ok tt, set_seq_num 65536 self, w')
    /\ forall w'',
         ack (set_seq_num 65536 self) w''
         = (Raise NumberOutOfRange, set_seq_num 65536 self, w'').
Proof.
  intros H1 H2.
  destruct (ack_times_spec (Z.to_nat (65536 - seq_num self)) self w)
    as (w' & E); [lia | lia | lia |].
  exists w'. split.
  - rewrite E. do 2 f_equal. f_equal. lia.
  - intros w''.
    destruct (ack_cases (set_seq_num 65536 self) w'')
      as [(_ & F & _) | [_ E']]; [| exact E'].
    unfold fits in F. cbn in F. lia.
Qed.

Lemma ack_budget_witness :
  exists w',
    ack_times (Z.to_nat (65536 - seq_num example_socket)) example_socket
      (world0 silent_env)
    = (Ok tt, set_seq_num 65536 example_socket, w')
    /\ forall w'',
         ack (set_seq_num 65536 example_socket) w''
         = (Raise NumberOutOfRange, set_seq_num 65536 example_socket, w'').
Proof.
  apply (ack_budget example_socket (world0 silent_env)); cbn; lia.
Defined.

(** X20.  A failed [connect] still redirects the socket.  [connect]
    raises, but it has already stored the address it was given; on a
    connection with numbers in range a following [ack] returns normally
    and sends each of its datagrams to that address. *)
Theorem connect_then_ack (addr : string) (port : Z) (ka : bool)
    (self : RatSocket) (w : World) :
  0 <= stream_id self <= 65535 -> 0 <= seq_num self <= 65535 ->
  exists s1 w1 s2 w2 hdr k,
    connect addr port ka self w
    = (Raise (UnboundLocalError "retry_times"), s1, w1)
    /\ remote_addr s1 = (addr, port)
    /\ timeout (udp s1) = Some RAT_REPLY_TIMEOUT
    /\ ack s1 w1 = (Ok tt, s2, w2)
    /\ trace w2
       = trace w1 ++ repeat (EvSendTo (fd (udp self)) hdr (addr, port)) k
    /\ (1 <= k)%nat.
Proof.
  intros H1 H2.
  assert (Hc : exists w1,
             connect addr port ka self w
             = (Raise (UnboundLocalError "retry_times"),
                set_remote_addr (addr, port)
                  (set_udp (mkUdp (fd (udp self)) (Some RAT_REPLY_TIMEOUT)
                              (bound_to (udp self))) self), w1)).
  { unfold connect, bind, udp_settimeout, assign, debug_print, raise.
    cbn [debug_mode set_remote_addr set_udp].
    destruct (debug_mode self); eexists; reflexivity. }
  destruct Hc as (w1 & Ec). rewrite Ec.
  set (s1 := set_remote_addr _ _).
  destruct (ack_outcome s1 w1) as (hdr & E & _);
    [unfold in_range, s1; cbn; lia |].
  pose proof (attempts_bounds (env_send (env w1)) (count is_sendto w1)
                RAT_RETRY_TIMES) as [_ Hpos].
  specialize (Hpos ltac:(unfold RAT_RETRY_TIMES; lia)).
  exists s1, w1. do 4 eexists. split; [reflexivity |].
  split; [reflexivity |]. split; [reflexivity |].
  split; [exact E |]. split; [reflexivity | exact Hpos].
Qed.

Lemma connect_then_ack_witness :
  exists s1 w1 s2 w2 hdr k,
    connect "10.0.0.9" 7001 false fresh_socket fresh_world
    = (Raise (UnboundLocalError "retry_times"), s1, w1)
    /\ remote_addr s1 = ("10.0.0.9"%string, 7001)
    /\ timeout (udp s1) = Some RAT_REPLY_TIMEOUT
    /\ ack s1 w1 = (Ok tt, s2, w2)
    /\ trace w2
       = trace w1
         ++ repeat (EvSendTo (fd (udp fresh_socket)) hdr
                      ("10.0.0.9"%string, 7001)) k
    /\ (1 <= k)%nat.
Proof.
  apply (connect_then_ack "10.0.0.9" 7001 false fresh_socket fresh_world);
    cbn; lia.
Defined.

(** ** Negative acknowledgements *)

(** X21.  [nack] never gets as far as transmitting.  For every argument
    it raises and leaves the socket and the world exactly as they were, so
    [seq_num] is not incremented: a non-empty list of sequence numbers
    raises [NameError], and the empty list raises [TypeError] once the
    header is built, or [NumberOutOfRange] when the socket's numbers do
    not fit the header. *)
Theorem nack_always_raises (seq_nums : list Z) (self : RatSocket)
    (w : World) :
  exists e,
    nack seq_nums self w = (Raise e, self, w)
    /\ (seq_nums <> [] -> e = NameError "zero_pad")
    /\ (seq_nums = [] ->
        (fits (stream_id self) 16 /\ fits (seq_num self) 16
         /\ e = TypeError)
        \/ (~ (fits (stream_id self) 16 /\ fits (seq_num self) 16)
            /\ e = NumberOutOfRange)).
Proof.
  destruct seq_nums as [| x t].
  - unfold nack. cbn [List.concat List.length Z.of_nat Z.modulo Z.eqb negb].
    change (0 mod 16 =? 0) with true. cbn [negb].
    unfold bind, get, lift, raise.
    destruct (construct_header_cases self 0 (flag_set [NACK]) 0
                (flag_set_field [NACK])) as [[Hfit (hdr & E & _)] | [Hno E]];
      rewrite all_fit_ack in *; rewrite E.
    + exists TypeError. split; [reflexivity |]. split; [congruence |].
      intros _. left. tauto.
    + exists NumberOutOfRange. split; [reflexivity |]. split; [congruence |].
      intros _. right. tauto.
  - exists (NameError "zero_pad"). split; [reflexivity |].
    split; [reflexivity | discriminate].
Qed.

(** ** The test script *)

Section WpAdds.
Variable P : io_event -> Prop.
Variables (self : RatSocket) (w0 w : World).
Hypothesis Hw : adds P w0 w.

Lemma adds_refl (v : World) : adds P v v.
Proof.
  split; [reflexivity |]. exists []. rewrite app_nil_r.
  split; [reflexivity | constructor].
Qed.

Lemma adds_log (e : io_event) : P e -> adds P w0 (log e w).
Proof.
  intros He. destruct Hw as (Henv & added & Ht & Ha).
  split; [exact Henv |]. exists (added ++ [e]). split.
  - unfold log. cbn [trace]. rewrite Ht. now rewrite app_assoc.
  - apply Forall_app. split; [exact Ha | now constructor].
Qed.

Lemma wpa_debug_print (msg : string) Q :
  P (EvPrint msg) ->
  (forall w', adds P w0 w' -> Q (Ok tt) self w') ->
  wp (debug_print msg) Q self w.
Proof.
  intros He H. unfold wp, debug_print.
  destruct (debug_mode self); apply H; [now apply adds_log | exact Hw].
Qed.

Lemma wpa_udp_recvfrom (n : nat) Q :
  P (EvRecvFrom (fd (udp self)) n) ->
  (forall r w', adds P w0 w' -> ~ recv_blocks self w -> Q (Ends r) self w') ->
  (forall w', adds P w0 w' -> recv_blocks self w -> Q Blocks self w') ->
  wp_blocking (udp_recvfrom n) Q self w.
Proof.
  intros He Hends Hblocks. unfold wp_blocking, udp_recvfrom.
  pose proof (adds_log _ He) as Hl. unfold recv_blocks in *.
  destruct (env_recv _ _) eqn:E.
  - apply Hends; [exact Hl | intros [_ H]; discriminate H].
  - apply Hends; [exact Hl | intros [_ H]; discriminate H].
  - destruct (timeout (udp self)) eqn:T.
    + apply Hends; [exact Hl | intros [H _]; discriminate H].
    + apply Hblocks; [exact Hl | now split].
Qed.

Lemma wpa_udp_settimeout (t : option Z) Q :
  P (EvSetTimeout (fd (udp self)) t) ->
  (forall w', adds P w0 w' ->
     Q (Ok tt) (set_udp (mkUdp (fd (udp self)) t (bound_to (udp self))) self)
       w') ->
  wp (udp_settimeout t) Q self w.
Proof.
  intros He H. unfold wp, udp_settimeout. apply H. now apply adds_log.
Qed.

Lemma wpa_randrange (lo hi : Z) Q :
  P (EvRandrange lo hi) ->
  (forall r w', adds P w0 w' -> Q (Ok r) self w') ->
  wp (randrange lo hi) Q self w.
Proof. intros He H. unfold wp, randrange. apply H. now apply adds_log. Qed.
End WpAdds.

(** The calls a method may make when it prints none of the two messages
    that report success. *)
Lemma new_RatSocket_adds (P : io_event -> Prop) (d : bool)
    (self : RatSocket) (w0 w : World) Q :
  adds P w0 w ->
  (forall fd0 t, P (EvSocket fd0) /\ P (EvSetTimeout fd0 t)) ->
  (forall u w', adds P w0 w' ->
     Q (Ok (mkRatSocket SOCK_UNOPENED u 0 0 0 ("localhost"%string, 0)
              [] [] true 0 d)) self w') ->
  wp (new_RatSocket d) Q self w.
Proof.
  intros Hw HP H. unfold wp, new_RatSocket, RatSocket_init. apply H.
  destruct (HP (count is_socket w) None) as [H1 H2].
  exact (adds_log P w0 _ (adds_log P w0 w Hw _ H1) _ H2).
Qed.

Lemma quiet_other (e : io_event) : (forall m, e <> EvPrint m) -> quiet e.
Proof. intros H. split; apply H. Qed.

Ltac quiet_event :=
  first [ apply quiet_other; intros ?; discriminate
        | split; unfold MSG_LISTENING; vm_compute; discriminate
        | split; unfold MSG_LISTENING; cbn; discriminate ].

Lemma accept_quiet (self : RatSocket) (w0 w : World) :
  adds quiet w0 w ->
  wp_blocking accept (fun _ _ w' => adds quiet w0 w') self w.
Proof.
  intros Hw. unfold accept.
  wpb_step wp_state_check_one; [intros _ | auto].
  apply wp_blocking_bind, wp_nonblocking,
    (wpa_debug_print quiet self w0 w Hw); [quiet_event |].
  intros w1 H1.
  apply wp_blocking_bind, (wpa_udp_recvfrom quiet self w0 w1 H1);
    [quiet_event | | auto].
  intros [[data from] | e] w2 H2 _; [| exact H2].
  wpb_step @wp_lift.
  destruct (decode_rat_header _) as [hlo |]; [| auto].
  wpb_step @wp_lift.
  destruct (flag_decode _) as [flags |]; [| auto].
  destruct (flag_in HLO flags); [| apply wp_nonblocking, wp_ret; auto].
  apply wp_blocking_bind, wp_nonblocking,
    (wpa_udp_settimeout quiet self w0 w2 H2); [quiet_event |].
  intros w3 H3.
  apply wp_blocking_bind, wp_nonblocking,
    (wpa_debug_print quiet _ w0 w3 H3); [quiet_event |].
  intros w4 H4.
  apply wp_blocking_bind, wp_nonblocking,
    (new_RatSocket_adds quiet false _ w0 w4 _ H4);
    [intros; split; quiet_event |].
  intros u w5 H5.
  apply wp_blocking_bind, wp_nonblocking,
    (wpa_randrange quiet _ w0 w5 H5); [quiet_event |].
  intros r w6 H6. wpb_step wp_assign.
  cbn [RAT_RETRY_TIMES]. apply wp_nonblocking, wp_raise. auto.
Qed.

Lemma adds_count (p : io_event -> bool) (w w' : World) :
  adds (fun e => p e = false) w w' -> count p w' = count p w.
Proof.
  intros (_ & added & Ht & Ha). unfold count.
  rewrite Ht, filter_app, length_app.
  replace (filter p added) with (@nil io_event); [cbn; lia |].
  symmetry. clear Ht. induction Ha as [| e l He _ IH]; [reflexivity |].
  cbn [filter]. rewrite He. exact IH.
Qed.

(** [accept] waits for ever exactly when it gets as far as its receive
    and that receive does. *)
Lemma accept_blocks_iff (self : RatSocket) (w : World) :
  wp_blocking accept
    (fun r _ _ =>
       r = Blocks
       <-> current_state self = SOCK_SERVOPEN /\ recv_blocks self w)
    self w.
Proof.
  set (P := fun e => is_recvfrom e = false).
  assert (Hends : forall r : result accept_value,
            ~ (current_state self = SOCK_SERVOPEN /\ recv_blocks self w) ->
            Ends r = Blocks
            <-> current_state self = SOCK_SERVOPEN /\ recv_blocks self w)
    by (intros r Hn; split; [discriminate | tauto]).
  unfold accept.
  wpb_step wp_state_check_cases; [intros Hs | intros Hn; apply Hends; tauto].
  apply wp_blocking_bind, wp_nonblocking,
    (wpa_debug_print P self w w (adds_refl P w)); [reflexivity |].
  intros w1 H1.
  assert (Hsame : recv_blocks self w1 <-> recv_blocks self w).
  { unfold recv_blocks. rewrite (adds_count is_recvfrom w w1 H1).
    destruct H1 as [-> _]. tauto. }
  assert (Hq : ~ recv_blocks self w1 ->
               forall r', Ends r' = Blocks
                          <-> current_state self = SOCK_SERVOPEN
                              /\ recv_blocks self w)
    by (intros Hb r'; apply Hends; tauto).
  wpb_recv.
  2: { intros w2 _ Hb. now apply Hq. }
  2: { intros w2 _ Hb. split; [tauto | reflexivity]. }
  intros data from w2 _ Hd.
  assert (Hb : ~ recv_blocks self w1)
    by (intros [_ Hb]; rewrite Hd in Hb; discriminate Hb).
  specialize (Hq Hb).
  wpb_step @wp_lift.
  destruct (decode_rat_header _) as [hlo |]; [| apply Hq].
  wpb_step @wp_lift.
  destruct (flag_decode _) as [flags |]; [| apply Hq].
  destruct (flag_in HLO flags); [| apply wp_nonblocking, wp_ret, Hq].
  wpb_step wp_udp_settimeout; intros w3 _.
  wpb_step wp_debug_print; intros w4 _.
  wpb_step wp_new_RatSocket; intros n w5 _.
  wpb_step wp_randrange; intros r w6 _.
  wpb_step wp_assign.
  cbn [RAT_RETRY_TIMES]. apply wp_nonblocking, wp_raise, Hq.
Qed.

(** X22.  The test script cannot report success.  Whatever is on the
    command line, whatever the network does and whatever the identity
    test would answer, [main] does not return normally: it ends in an
    exception, or it waits for ever in the receive of [accept], which it
    does exactly when the argument is an integer, the bind succeeds and no
    datagram arrives.  Among the calls it has made there is neither the
    message that a connection was accepted nor the message that the data
    was received. *)
Theorem test_script_never_succeeds (a : argv1_case)
    (same_object : bytes -> bool) (w : World) :
  exists r self' w',
    test_main a same_object w = (r, self', w')
    /\ (r = Blocks \/ exists e, r = Ends (Raise e))
    /\ (r = Blocks
        <-> (exists port, int_argv1 a = Ok port)
            /\ env_bind (env w) (count is_bind w) = true
            /\ env_recv (env w) (count is_recvfrom w) = NoDatagram)
    /\ adds quiet w w'.
Proof.
  set (C := (exists port, int_argv1 a = Ok port)
            /\ env_bind (env w) (count is_bind w) = true
            /\ env_recv (env w) (count is_recvfrom w) = NoDatagram).
  set (Q := fun (r : outcome unit) (_ : RatSocket) (w' : World) =>
              (r = Blocks \/ exists e, r = Ends (Raise e))
              /\ (r = Blocks <-> C) /\ adds quiet w w').
  assert (Hraise : forall e s' w', ~ C -> adds quiet w w' ->
                     Q (Ends (Raise e)) s' w').
  { intros e s' w' Hn Ha. split; [right; now exists e |].
    split; [| exact Ha]. split; [discriminate | tauto]. }
  unfold test_main, RatSocket_init. cbv beta zeta iota.
  set (d := count is_socket w).
  set (w1 := log (EvSetTimeout d None) (log (EvSocket d) w)).
  set (s0 := mkRatSocket SOCK_UNOPENED (mkUdp d None None) 0 0 0
               ("localhost"%string, 0) [] [] true 0 true).
  assert (H1 : adds quiet w w1).
  { apply adds_log; [| quiet_event]. apply adds_log; [| quiet_event].
    apply adds_refl. }
  assert (E1 : env w1 = env w /\ count is_bind w1 = count is_bind w
               /\ count is_recvfrom w1 = count is_recvfrom w).
  { unfold w1. rewrite !count_log. cbn. repeat split; lia. }
  destruct E1 as (Ee1 & Eb1 & Er1).
  match goal with
  | |- exists _ _ _, ?m s0 w1 = _ /\ _ =>
      assert (H : wp_blocking m Q s0 w1)
  end.
  { apply wp_blocking_bind, wp_nonblocking. unfold wp. unfold print at 1.
    set (w2 := log (EvPrint MSG_CONSTRUCTED) w1).
    assert (H2 : adds quiet w w2) by (apply adds_log; [exact H1 | quiet_event]).
    wpb_step @wp_lift.
    destruct (int_argv1 a) as [port | e] eqn:Ea.
    2: { apply Hraise; [| exact H2]. intros [[port Hp] _]. discriminate Hp. }
    apply wp_blocking_bind, wp_nonblocking. unfold wp.
    unfold listen, bind. rewrite state_check_one. unfold s0 at 1.
    cbn [current_state State_eqb State_value Z.eqb Pos.eqb].
    unfold udp_bind.
    replace (env_bind (env w2) (count is_bind w2))
      with (env_bind (env w) (count is_bind w))
      by (unfold w2; rewrite count_log; cbn [env log is_bind];
          now rewrite Ee1, Eb1, Nat.add_0_r).
    destruct (env_bind (env w) (count is_bind w)) eqn:Eb.
    2: { apply Hraise.
         - intros (_ & Hb & _). discriminate Hb.
         - apply adds_log; [exact H2 | quiet_event]. }
    unfold assign, debug_print. unfold s0.
    cbv beta iota delta
      [debug_mode set_current_state set_num_connections set_udp udp fd
       timeout current_state stream_id seq_num window_size remote_addr
       active_streams sock_queue obey_keepalives num_connections].
    set (s1 := mkRatSocket SOCK_SERVOPEN
                 (mkUdp d None (Some ("127.0.0.1"%string, port))) 0 0 0
                 ("localhost"%string, 0) [] [] true 5 true).
    set (w3 := log (EvPrint DEBUG_LISTEN) (log (EvBind d _) w2)).
    assert (H3 : adds quiet w w3).
    { apply adds_log; [| quiet_event]. apply adds_log; [exact H2 |].
      quiet_event. }
    apply wp_blocking_bind, wp_nonblocking. unfold wp. unfold print at 1.
    set (w4 := log (EvPrint _) w3).
    assert (H4 : adds quiet w w4) by (apply adds_log; [exact H3 | quiet_event]).
    assert (E4 : recv_blocks s1 w4
                 <-> env_recv (env w) (count is_recvfrom w) = NoDatagram).
    { unfold recv_blocks, w4, w3, w2. rewrite !count_log.
      cbn [env log is_recvfrom s1 udp timeout]. rewrite Ee1, Er1, !Nat.add_0_r.
      split; [tauto | now split]. }
    apply wp_blocking_bind. unfold wp_blocking at 1.
    pose proof (accept_outcome s1 w4) as Ho.
    pose proof (accept_quiet s1 w w4 H4) as Hq.
    pose proof (accept_blocks_iff s1 w4) as Hb.
    unfold wp_blocking in Ho, Hq, Hb.
    change (accept _ w4) with (accept s1 w4).
    destruct (accept s1 w4) as [[r s5] w5]. destruct Ho as [Ho _].
    assert (Hn : r <> Blocks -> ~ C).
    { intros Hr (_ & _ & Hd). apply Hr, Hb. split; [reflexivity |].
      now apply E4. }
    destruct Ho as [[-> _] | [(-> & _ & _) | (e & -> & _)]].
    - apply wp_blocking_bind, wp_nonblocking. unfold wp, print.
      apply wp_blocking_bind, wp_nonblocking. unfold wp, recv, raise.
      apply Hraise; [apply Hn; discriminate |].
      apply adds_log; [exact Hq | quiet_event].
    - split; [now left |]. split; [| exact Hq].
      split; [intros _ | reflexivity].
      split; [now exists port |]. split; [reflexivity |].
      apply E4, Hb. reflexivity.
    - apply Hraise; [apply Hn; discriminate | exact Hq]. }
  unfold wp_blocking in H.
  match goal with
  | |- exists _ _ _, ?t = _ /\ _ => destruct t as [[r self'] w']
  end.
  exists r, self', w'. split; [reflexivity | exact H].
Qed.
